(** * Hostel student health bot: symptom scoring, triage and the report flow

    A shallow embedding of [health_bot.py]: the keyword scorer
    [analyze_symptoms], the triage bands of [get_verdict], the loader
    [load_symptoms_db], the input gate [validate_symptoms], the advice
    wrapper [get_gemini_response] and the interaction [report_symptoms],
    with the properties the specification states about them. *)

From Stdlib Require Import List ZArith NArith Bool Ascii String Lia.
From Stdlib Require Import Permutation DecimalString.
Import ListNotations.

Local Open Scope Z_scope.

(** ** Python strings

    A [str] is the sequence of its Unicode code points, so [len] is the length
    of the list and the literals of the source that carry symbols outside
    ASCII are written out by code point. *)

Module Str.

Local Open Scope N_scope.

Definition char : Type := N.
Definition str : Type := list char.

(** An ASCII literal of the source, character by character. *)
Definition lit (s : string) : str :=
  map N_of_ascii (list_ascii_of_string s).

Definition between (lo hi c : char) : bool :=
  (lo <=? c) && (c <=? hi).

(** [str.lower], character by character.  On the code points below 256 it is
    Python's mapping: [A-Z] and the Latin-1 capitals U+00C0..U+00DE (the
    multiplication sign U+00D7 apart) move up by 32, every other character
    stays.  Above 255 the Unicode case tables are not reproduced and the
    character stays. *)
Definition lower_char (c : char) : char :=
  if between 65 90 c || between 192 214 c || between 216 222 c
  then c + 32 else c.

Definition lower (s : str) : str := map lower_char s.

(** [char.isdigit()] on the code points below 256: the ten ASCII digits and
    the superscripts U+00B2, U+00B3 and U+00B9.  The digits of other scripts
    are not listed. *)
Definition isdigit (c : char) : bool :=
  between 48 57 c || (c =? 178) || (c =? 179) || (c =? 185).

(** [str.isspace] for one character, all of Unicode: what [strip] removes. *)
Definition isspace (c : char) : bool :=
  between 9 13 c || between 28 32 c || (c =? 133) || (c =? 160)
  || (c =? 5760) || between 8192 8202 c || (c =? 8232) || (c =? 8233)
  || (c =? 8239) || (c =? 8287) || (c =? 12288).

(** [s.startswith(p)]. *)
Fixpoint startswith (p s : str) : bool :=
  match p, s with
  | [], _ => true
  | _ :: _, [] => false
  | a :: p', b :: s' => (a =? b) && startswith p' s'
  end.

(** [k in s] for two strings: [k] occurs in [s] at some position. *)
Fixpoint contains (k s : str) : bool :=
  startswith k s
  || match s with
     | [] => false
     | _ :: s' => contains k s'
     end.

(** [s.split(sep)] for a non-empty [sep]: the pieces between the occurrences
    of [sep], found from the left and never overlapping.  [skip] counts the
    characters of a separator just found that are still to be passed over,
    [cur] is the piece being read. *)
Fixpoint split_from (sep : str) (skip : nat) (cur s : str) : list str :=
  match s with
  | [] => [cur]
  | c :: s' =>
      match skip with
      | S n => split_from sep n cur s'
      | O =>
          if startswith sep s
          then cur :: split_from sep (Nat.pred (List.length sep)) [] s'
          else split_from sep 0 (cur ++ [c]) s'
      end
  end.

Definition split (sep s : str) : list str := split_from sep 0 [] s.

Fixpoint lstrip (s : str) : str :=
  match s with
  | c :: s' => if isspace c then lstrip s' else s
  | [] => []
  end.

(** [s.strip()]: white space removed at both ends. *)
Definition strip (s : str) : str := rev (lstrip (rev (lstrip s))).

(** [any(c.isdigit() for c in s)]. *)
Definition any_isdigit (s : str) : bool := existsb isdigit s.

Definition len (s : str) : Z := Z.of_nat (List.length s).

End Str.

Import Str.

(** ** The keyword table

    [symptoms_db.json] read by [json.load]: an object from condition names to
    objects with a list of keywords and an integer weight.  A Python [dict]
    keeps its keys in insertion order and [items()] walks them in that order,
    so the table is the list of its items. *)

Record entry : Type := mk_entry {
  keywords : list str;
  weight : Z
}.

Definition symptoms_db : Type := list (str * entry).

(** ** The scorer *)

(** The inner loop of [analyze_symptoms] over the keywords of one condition,
    on the pair of the two variables it updates. *)
Definition scan_condition (symptoms_lower : str) (data : entry)
    (acc : list str * Z) : list str * Z :=
  fold_left
    (fun acc keyword =>
       let '(kws, score) := acc in
       if contains keyword symptoms_lower
       then (kws ++ [keyword], score + weight data)
       else (kws, score))
    (keywords data) acc.

(** The keywords and the score [analyze_symptoms] returns. *)
Definition analyze_symptoms (symptoms : str) (db : symptoms_db)
    : list str * Z :=
  let symptoms_lower := lower symptoms in
  fold_left
    (fun acc item =>
       let '(condition, data) := item in
       scan_condition symptoms_lower data acc)
    db ([], 0).

(** ** The triage bands *)

(** The three literals [get_verdict] returns: a coloured circle (U+1F7E2
    green, U+1F7E1 yellow, U+1F534 red), a blank and the name of the band. *)
Definition HOME_CARE : str := 0x1f7e2%N :: lit " Home Care".
Definition MONITOR : str := 0x1f7e1%N :: lit " Monitor".
Definition URGENT_CARE : str := 0x1f534%N :: lit " Urgent Care".

Definition get_verdict (score : Z) : str :=
  if score <? 3 then HOME_CARE
  else if (3 <=? score) && (score <=? 5) then MONITOR
  else URGENT_CARE.

(** ** The keyword table loader *)

(** What reading [symptoms_db.json] comes to: [open] raises, [json.load]
    raises on a file that opened, or the table is read. *)
Inductive load_outcome : Type :=
  | OpenRaises (e : str)
  | ParseRaises (e : str)
  | Loaded (db : symptoms_db).

(** The table [load_symptoms_db] returns. *)
Definition load_symptoms_db (file : load_outcome) : symptoms_db :=
  match file with
  | Loaded db => db
  | OpenRaises _ | ParseRaises _ => []
  end.

Definition load_failed (file : load_outcome) : bool :=
  match file with
  | Loaded _ => false
  | OpenRaises _ | ParseRaises _ => true
  end.

(** ** The advice generator *)

Record advice : Type := mk_advice {
  remedy : str;
  doctor_advice : str
}.

(** [model.generate_content(prompt)] followed by [response.text]: either of
    them raises, or the text is there. *)
Inductive generated : Type :=
  | Raised (e : str)
  | Text (text : str).

(** The two section headings: U+1F48A, then [ Remedy:]; U+1F468 U+200D U+2695
    U+FE0F, then [ When to see doctor:]. *)
Definition REMEDY_LABEL : str := 0x1f48a%N :: lit " Remedy:".
Definition DOCTOR_LABEL : str :=
  [0x1f468%N; 0x200d%N; 0x2695%N; 0xfe0f%N] ++ lit " When to see doctor:".

Definition REMEDY_UNPARSED : str :=
  lit "Unable to parse remedy from AI response".
Definition DOCTOR_UNPARSED : str :=
  lit "If symptoms persist or worsen, please consult a healthcare provider".
Definition REMEDY_ERROR : str :=
  lit "Error getting AI response. Please try again.".
Definition DOCTOR_ERROR : str :=
  lit "If symptoms persist, please consult a healthcare provider.".

(** [text.split(REMEDY_LABEL)[1].split(DOCTOR_LABEL)[0].strip()]; [None] is
    the [IndexError] of an index past the pieces. *)
Definition parse_remedy (text : str) : option str :=
  match nth_error (split REMEDY_LABEL text) 1 with
  | Some after =>
      match nth_error (split DOCTOR_LABEL after) 0 with
      | Some piece => Some (strip piece)
      | None => None
      end
  | None => None
  end.

(** [text.split(DOCTOR_LABEL)[1].strip()]. *)
Definition parse_doctor_advice (text : str) : option str :=
  match nth_error (split DOCTOR_LABEL text) 1 with
  | Some piece => Some (strip piece)
  | None => None
  end.

(** The dictionary [get_gemini_response] returns when it returns.  The
    prompt is a function of [symptoms] and [keywords], so the service is
    given as a function of these two.  The line the handler of a failed call
    prints, on which the console can raise, is with
    [get_gemini_response_or_raise]. *)
Definition get_gemini_response (generate : str -> list str -> generated)
    (symptoms : str) (kws : list str) : advice :=
  match generate symptoms kws with
  | Text text =>
      let remedy :=
        match parse_remedy text with
        | Some r => r
        | None => REMEDY_UNPARSED
        end in
      let doctor_advice :=
        match parse_doctor_advice text with
        | Some d => d
        | None => DOCTOR_UNPARSED
        end in
      mk_advice remedy doctor_advice
  | Raised _ => mk_advice REMEDY_ERROR DOCTOR_ERROR
  end.

(** ** The input gate *)

Definition validate_symptoms (symptoms : str) : bool :=
  if len symptoms <? 3 then false
  else if any_isdigit symptoms then false
  else true.

(** ** The report flow *)

(** A row of the [sessions] table.  The columns [keywords] and
    [gemini_response] hold the JSON text of the list and of the dictionary;
    the row keeps the values themselves. *)
Record session_row : Type := mk_row {
  row_student_id : str;
  row_timestamp : str;
  row_symptoms : str;
  row_keywords : list str;
  row_score : Z;
  row_verdict : str;
  row_response : advice
}.

(** The lines the modelled functions print on the console. *)
Inductive message : Type :=
  | DbLoaded
  | DbLoadError (e : str)
  | NoMatchingKeywords
  | FoundKeywords (n : Z)
  | AiError (e : str)
  | TooShort
  | AvoidNumbers
  | InvalidInput
  | ReportPanel
  | AdvicePanel (urgent : bool) (symptoms : str) (kws : list str)
      (score : Z) (verdict : str) (response : advice)
  | SeekAttention
  | FollowRemedy
  | LogSaved
  | ViewLater.

(** What a run does, in order: console lines, the prompt for the symptoms,
    the calls of the scorer and of the generator, the insert into
    [sessions]. *)
Inductive step : Type :=
  | Say (m : message)
  | Ask
  | CallAnalyze (symptoms : str)
  | CallGenerate (symptoms : str) (kws : list str)
  | Insert (r : session_row).

(** [load_symptoms_db] prints its success line once the file is open, before
    [json.load] runs. *)
Definition load_says (file : load_outcome) : list message :=
  match file with
  | Loaded _ => [DbLoaded]
  | ParseRaises e => [DbLoaded; DbLoadError e]
  | OpenRaises e => [DbLoadError e]
  end.

Definition analyze_says (kws : list str) : message :=
  match kws with
  | [] => NoMatchingKeywords
  | _ :: _ => FoundKeywords (Z.of_nat (List.length kws))
  end.

Definition gemini_says (g : generated) : list message :=
  match g with
  | Raised e => [AiError e]
  | Text _ => []
  end.

Definition validate_says (symptoms : str) : list message :=
  if len symptoms <? 3 then [TooShort]
  else if any_isdigit symptoms then [AvoidNumbers]
  else [].

(** The two lines of [display_response] when the console renders the
    panel; [display_response_or_raise] has the panel that raises. *)
Definition display_response (symptoms : str) (kws : list str) (score : Z)
    (verdict : str) (response : advice) : list message :=
  if score >? 5
  then [AdvicePanel true symptoms kws score verdict response; SeekAttention]
  else [AdvicePanel false symptoms kws score verdict response; FollowRemedy].

(** [save_log]: one row appended to [sessions], stamped with the clock, for
    a row the store takes.  [report_flow] has the insert that raises. *)
Definition save_log (now : str) (symptoms : str) (kws : list str) (score : Z)
    (verdict : str) (response : advice) (student_id : str) : list step :=
  [Insert (mk_row student_id now symptoms kws score verdict response);
   Say LogSaved; Say ViewLater].

(** What surrounds a run of [report_symptoms]: the table file, the answers
    the user types at the prompt, in order, the generator and the clock. *)
Record world : Type := mk_world {
  file : load_outcome;
  answers : list str;
  generate : str -> list str -> generated;
  now : str
}.

Record run : Type := mk_run {
  trace : list step;
  finished : bool
}.

(** The [while True] loop of [report_symptoms] over the answers typed, in
    the runs in which nothing raises: every line renders and the store
    takes the row.  It leaves by [break] after the first answer the gate
    accepts; with no answer left it stands at the prompt.  The runs that
    end in an exception are with [report_flow_loop]; they store nothing, so
    the rows of this loop are all the rows a run can store. *)
Fixpoint report_loop (w : world) (student_id : str) (db : symptoms_db)
    (typed : list str) : run :=
  match typed with
  | [] => mk_run [Say ReportPanel; Ask] false
  | symptoms :: rest =>
      if negb (validate_symptoms symptoms)
      then
        let again := report_loop w student_id db rest in
        mk_run
          ([Say ReportPanel; Ask]
           ++ map Say (validate_says symptoms) ++ [Say InvalidInput]
           ++ trace again)
          (finished again)
      else
        let '(kws, score) := analyze_symptoms symptoms db in
        let verdict := get_verdict score in
        let response := get_gemini_response (generate w) symptoms kws in
        mk_run
          ([Say ReportPanel; Ask]
           ++ [CallAnalyze symptoms; Say (analyze_says kws)]
           ++ [CallGenerate symptoms kws]
           ++ map Say (gemini_says (generate w symptoms kws))
           ++ map Say (display_response symptoms kws score verdict response)
           ++ save_log (now w) symptoms kws score verdict response student_id)
          true
  end.

Definition report_symptoms (w : world) (student_id : str) : run :=
  let db := load_symptoms_db (file w) in
  let r := report_loop w student_id db (answers w) in
  mk_run (map Say (load_says (file w)) ++ trace r) (finished r).

(** The rows a trace appends to [sessions]. *)
Fixpoint inserted (t : list step) : list session_row :=
  match t with
  | [] => []
  | Insert r :: t' => r :: inserted t'
  | _ :: t' => inserted t'
  end.

(** The texts a trace hands to the scorer. *)
Fixpoint analyzed (t : list step) : list str :=
  match t with
  | [] => []
  | CallAnalyze s :: t' => s :: analyzed t'
  | _ :: t' => analyzed t'
  end.

(** A table and a world to run the flow on. *)
Definition sample_db : symptoms_db :=
  [ (lit "fever", mk_entry [lit "fever"; lit "chills"] 2);
    (lit "cold", mk_entry [lit "cough"] 1) ].

Definition sample_world (file : load_outcome) (typed : list str)
    (g : generated) : world :=
  mk_world file typed (fun _ _ => g) (lit "2024-01-15 09:30:00").

(** ** The sum the specification states *)

(** Every (condition, entry, keyword) of the table, in iteration order. *)
Definition table_pairs (db : symptoms_db) : list (str * entry * str) :=
  flat_map
    (fun item => map (fun k => (fst item, snd item, k)) (keywords (snd item)))
    db.

Definition pair_keyword (p : str * entry * str) : str := snd p.
Definition pair_weight (p : str * entry * str) : Z := weight (snd (fst p)).

(** The keyword of the pair occurs in the text. *)
Definition matches (symptoms_lower : str) (p : str * entry * str) : bool :=
  contains (pair_keyword p) symptoms_lower.

(** The pairs whose keyword occurs in the lower-cased input. *)
Definition matching_pairs (symptoms : str) (db : symptoms_db)
    : list (str * entry * str) :=
  filter (matches (lower symptoms)) (table_pairs db).

Definition sum_Z (l : list Z) : Z := fold_right Z.add 0 l.

(** [k] occurs in [s] when the case of both is disregarded. *)
Definition contains_nocase (k s : str) : bool :=
  contains (lower k) (lower s).

(** The row the accepted branch of the loop stores. *)
Definition row_of (w : world) (student_id : str) (db : symptoms_db)
    (symptoms : str) : session_row :=
  let kws := fst (analyze_symptoms symptoms db) in
  let score := snd (analyze_symptoms symptoms db) in
  mk_row student_id (now w) symptoms kws score (get_verdict score)
    (get_gemini_response (generate w) symptoms kws).

(** A section text that holds neither the pill (U+1F48A) nor the man
    (U+1F468) with which the two headings begin. *)
Definition heading_free (s : str) : Prop :=
  ~ In 0x1f48a%N s /\ ~ In 0x1f468%N s.

(** ** More of the program *)

(** [a == b] on strings. *)
Fixpoint str_eqb (a b : str) : bool :=
  match a, b with
  | [], [] => true
  | x :: a', y :: b' => (x =? y)%N && str_eqb a' b'
  | _, _ => false
  end.

(** [str(n)] for an integer. *)
Definition str_of_int (n : Z) : str :=
  lit (NilZero.string_of_int (Z.to_int n)).

(** [x or ""] for a string [x]. *)
Definition or_empty (x : str) : str :=
  match x with
  | [] => lit ""
  | _ :: _ => x
  end.

(** *** [view_history] *)

(** The circle [view_history] puts before a verdict. *)
Definition verdict_emoji (verdict : str) : str :=
  if str_eqb verdict (lit "Home Care") then [0x1f7e2%N]
  else if str_eqb verdict (lit "Monitor") then [0x1f7e1%N]
  else [0x1f534%N].

(** A row of the query of [view_history]: timestamp, symptoms, score and
    verdict of a session. *)
Definition history_log : Type := (str * str * Z * str)%type.

Definition log_of_row (r : session_row) : history_log :=
  (row_timestamp r, row_symptoms r, row_score r, row_verdict r).

(** The four cells [view_history] adds to its table for one row. *)
Definition history_line (log : history_log) : str * str * str * str :=
  let '(timestamp, symptoms, score, verdict) := log in
  (timestamp, symptoms, str_of_int score,
   verdict_emoji verdict ++ lit " " ++ verdict).

Inductive history_view : Type :=
  | NoHealthLogs
  | HistoryPanel (lines : list (str * str * str * str)).

(** What [view_history] shows for the rows its query returned. *)
Definition view_history (logs : list history_log) : history_view :=
  match logs with
  | [] => NoHealthLogs
  | _ :: _ => HistoryPanel (map history_line logs)
  end.

(** *** [manage_medical_history] *)

(** A row of [medical_history] as [SELECT *] returns it, column by column. *)
Record medical_entry : Type := mk_medical {
  med_id : Z;
  med_student_id : str;
  med_condition : str;
  med_description : str;
  med_start_date : str;
  med_end_date : option str;
  med_is_ongoing : Z;
  med_created_at : str
}.

(** The row option 1 inserts: the end date is asked for only when the
    condition is not ongoing, and is [None] otherwise.  [id] is the key the
    table gives the row. *)
Definition add_medical_condition (id : Z)
    (student_id condition description start_date : str) (is_ongoing : bool)
    (end_answer : str) (timestamp : str) : medical_entry :=
  let end_date := if is_ongoing then None else Some end_answer in
  mk_medical id student_id condition description start_date end_date
    (if is_ongoing then 1 else 0) timestamp.

Definition ONGOING : str := 0x1f7e2%N :: lit " Ongoing".
Definition ENDED : str := 0x1f534%N :: lit " Ended: ".
Definition UNKNOWN : str := 0x26aa%N :: lit " Unknown".

(** The status of option 2: [entry[5]] is the end date and [entry[4]] the
    start date of the row. *)
Definition medical_status (entry : medical_entry) : str :=
  match med_end_date entry with
  | Some (_ :: _) => ONGOING
  | Some [] | None =>
      match med_start_date entry with
      | _ :: _ => ENDED ++ med_start_date entry
      | [] => UNKNOWN
      end
  end.

(** The cells of one row of the table of option 2, under the headings
    Condition, Description, Start Date and Status: [entry[2]],
    [entry[3] or ""], [entry[3]] and the status. *)
Definition medical_line (entry : medical_entry) : str * str * str * str :=
  (med_condition entry, or_empty (med_description entry),
   med_description entry, medical_status entry).

(** *** [manage_allergies] *)

Record allergy_entry : Type := mk_allergy {
  alg_id : Z;
  alg_student_id : str;
  alg_type : str;
  alg_name : str;
  alg_severity : str;
  alg_notes : str;
  alg_created_at : str
}.

Definition add_allergy (id : Z) (student_id allergy_type name severity notes
    timestamp : str) : allergy_entry :=
  mk_allergy id student_id allergy_type name severity notes timestamp.

(** The circle of option 2, chosen on [allergy[3]], the name column. *)
Definition severity_emoji (entry : allergy_entry) : str :=
  if str_eqb (alg_name entry) (lit "Mild") then [0x1f7e2%N]
  else if str_eqb (alg_name entry) (lit "Moderate") then [0x1f7e1%N]
  else [0x1f534%N].

(** The cells under Type, Name, Severity and Notes: [allergy[2]],
    [allergy[3]], the circle with [allergy[3]], and [allergy[5] or ""]. *)
Definition allergy_line (entry : allergy_entry) : str * str * str * str :=
  (alg_type entry, alg_name entry,
   severity_emoji entry ++ lit " " ++ alg_name entry,
   or_empty (alg_notes entry)).

(** *** [manage_emergency_contacts] *)

Record contact_entry : Type := mk_contact {
  con_id : Z;
  con_student_id : str;
  con_name : str;
  con_relationship : str;
  con_phone : str;
  con_email : str;
  con_is_primary : Z;
  con_created_at : str
}.

Definition add_contact (id : Z) (student_id name relationship phone email
    : str) (is_primary : bool) (timestamp : str) : contact_entry :=
  mk_contact id student_id name relationship phone email
    (if is_primary then 1 else 0) timestamp.

Definition STAR_YES : str := 0x2b50%N :: lit " Yes".

(** The cells under Name, Relationship, Phone, Email and Primary. *)
Definition contact_line (entry : contact_entry)
    : str * str * str * str * str :=
  (con_name entry, con_relationship entry, con_phone entry,
   or_empty (con_email entry),
   if con_is_primary entry =? 0 then lit "No" else STAR_YES).

(** *** [show_symptom_timeline] *)

(** [counts[date]] once the rows of the query are read: every date starts
    at 0 and takes the count of each row of [data] that names it, the last
    one staying. *)
Definition count_on (data : list (str * Z)) (date : str) : Z :=
  fold_left
    (fun count row => if str_eqb (fst row) date then snd row else count)
    data 0.

(** [max(counts.values()) if counts.values() else 1]: the dictionary has the
    dates for keys, so its values are the counts of the dates. *)
Definition max_count (dates : list str) (data : list (str * Z)) : Z :=
  match map (count_on data) dates with
  | [] => 1
  | c :: cs => fold_left Z.max cs c
  end.

(** The bar of a day: the block U+2588, [int((count * 20) / max_count)]
    times.  The quotient of the source is a float cut to an integer; for
    counts below 2^49 that is the integer quotient cut towards zero. *)
Definition bar (count maxc : Z) : str :=
  repeat 0x2588%N (Z.to_nat (Z.quot (count * 20) maxc)).

(** [strftime("%d/%m")] of a date written [YYYY-MM-DD]. *)
Definition day_month (date : str) : str :=
  firstn 2 (skipn 8 date) ++ lit "/" ++ firstn 2 (skipn 5 date).

Inductive timeline : Type :=
  | ZeroDivisionError
  | TimelinePanel (lines : list (str * str * str)).

(** [show_symptom_timeline] on the eight dates of the window and the rows
    (date, count) of its query.  The division by a [max_count] of 0 raises
    in the first round of the loop, before anything is shown. *)
Definition show_symptom_timeline (dates : list str) (data : list (str * Z))
    : timeline :=
  let maxc := max_count dates data in
  if maxc =? 0 then ZeroDivisionError
  else
    TimelinePanel
      (map (fun date =>
              let count := count_on data date in
              (day_month date, str_of_int count, bar count maxc))
         dates).

(** *** [show_session_stats] *)

(** Minutes and seconds of a session that lasted [session_duration]
    seconds: [//] and [%] of Python, which round towards minus infinity. *)
Definition show_session_stats (session_duration : Z) : Z * Z :=
  (session_duration / 60, session_duration mod 60).

(** *** [get_personalized_advice] *)

Definition SEASONAL_ALERTS : list (str * list str) :=
  [ (lit "summer",
     [ 0x1f31e%N :: lit " Stay hydrated! Aim for 8-10 glasses of water daily";
       [0x1f321%N; 0xfe0f%N]
       ++ lit " Heat exhaustion risk - limit outdoor activity between 11AM-3PM" ]);
    (lit "monsoon",
     [ 0x1f99f%N
       :: lit " Dengue risk increased - use mosquito nets and repellents";
       0x1f4a7%N :: lit " Avoid walking through stagnant water" ]);
    (lit "winter",
     [ 0x1f9e3%N :: lit " Keep warm! Cold temperatures can lower immunity";
       0x1fac1%N
       :: lit " Indoor air quality matters - ventilate your room daily" ]) ].

(** [d[key]] on a dictionary given by its items; [None] is the [KeyError]. *)
Fixpoint dict_get {A : Type} (d : list (str * A)) (key : str) : option A :=
  match d with
  | [] => None
  | (k, v) :: d' => if str_eqb k key then Some v else dict_get d' key
  end.

Definition season_of (month : Z) : str :=
  if (3 <=? month) && (month <=? 6) then lit "summer"
  else if (7 <=? month) && (month <=? 10) then lit "monsoon"
  else lit "winter".

Inductive advice_line : Type :=
  | PersonalizedAdvice
  | SeasonalHealthAlert
  | Bullet (text : str).

(** The lines printed for one frequent symptom. *)
Definition symptom_advice (symptom : str) : list advice_line :=
  if contains (lit "fatigue") (lower symptom)
  then [ Bullet (lit "Consider iron-rich foods (spinach, lentils) - common in hostel diets");
         Bullet (lit "Maintain a regular sleep schedule (aim for 7-8 hours)") ]
  else if contains (lit "headache") (lower symptom)
  then [ Bullet (lit "Take regular screen breaks (20-20-20 rule)");
         Bullet (lit "Stay hydrated and maintain good posture") ]
  else [].

(** [get_personalized_advice] on the rows (symptoms, frequency) of its query
    and the month of the clock; [None] is a [KeyError] of the season
    lookup. *)
Definition get_personalized_advice (frequent_symptoms : list (str * Z))
    (month : Z) : option (list advice_line) :=
  let personal :=
    match frequent_symptoms with
    | [] => []
    | _ :: _ =>
        PersonalizedAdvice
        :: flat_map (fun row => symptom_advice (fst row)) frequent_symptoms
    end in
  match dict_get SEASONAL_ALERTS (season_of month) with
  | Some alerts => Some (personal ++ SeasonalHealthAlert :: map Bullet alerts)
  | None => None
  end.

(** *** [create_new_profile] *)

(** A row of [users]. *)
Record user_row : Type := mk_user {
  user_student_id : str;
  user_full_name : str;
  user_age : Z;
  user_gender : str;
  user_hostel_room : str;
  user_created_at : str;
  user_last_login : str
}.

Definition GENDERS : list str := [lit "Male"; lit "Female"; lit "Other"].

(** [not x.strip()]. *)
Definition blank (x : str) : bool :=
  match strip x with
  | [] => true
  | _ :: _ => false
  end.

(** [SELECT student_id FROM users WHERE student_id = ?] finds a row. *)
Definition registered (users : list user_row) (student_id : str) : bool :=
  existsb (fun u => str_eqb (user_student_id u) student_id) users.

(** Where the form stands: the prompt that is waiting, with the answers
    kept so far. *)
Inductive form_state : Type :=
  | AskName
  | AskStudentId (full_name : str)
  | AskAge (full_name student_id : str)
  | AskGender (full_name student_id : str) (age : Z)
  | AskRoom (full_name student_id : str) (age : Z) (gender : str).

Inductive profile_message : Type :=
  | NameEmpty
  | StudentIdEmpty
  | AlreadyRegistered
  | AgeOutOfRange
  | AgeNotANumber
  | RoomEmpty
  | ProfileCreated.

Inductive profile_result : Type :=
  | WaitingForAnswer (said : list profile_message)
  | Created (said : list profile_message) (student_id : str)
      (users : list user_row).

(** The loop of [create_new_profile], one answer at a time.  [to_int] is
    [int] on a string, [None] for its [ValueError].  A [continue] starts the
    form over at the name; the gender prompt, which has [choices], asks again
    by itself until the answer is one of them; after the room the row is
    inserted, stamped twice with the clock, and the student id returned. *)
Fixpoint profile_form (users : list user_row) (to_int : str -> option Z)
    (timestamp : str) (st : form_state) (said : list profile_message)
    (typed : list str) : profile_result :=
  match typed with
  | [] => WaitingForAnswer said
  | a :: rest =>
      match st with
      | AskName =>
          if blank a
          then profile_form users to_int timestamp AskName
                 (said ++ [NameEmpty]) rest
          else profile_form users to_int timestamp (AskStudentId a) said rest
      | AskStudentId full_name =>
          if blank a
          then profile_form users to_int timestamp AskName
                 (said ++ [StudentIdEmpty]) rest
          else if registered users a
          then profile_form users to_int timestamp AskName
                 (said ++ [AlreadyRegistered]) rest
          else profile_form users to_int timestamp (AskAge full_name a)
                 said rest
      | AskAge full_name student_id =>
          match to_int a with
          | Some age =>
              if (age <? 0) || (age >? 120)
              then profile_form users to_int timestamp AskName
                     (said ++ [AgeOutOfRange]) rest
              else profile_form users to_int timestamp
                     (AskGender full_name student_id age) said rest
          | None =>
              profile_form users to_int timestamp AskName
                (said ++ [AgeNotANumber]) rest
          end
      | AskGender full_name student_id age =>
          if existsb (str_eqb a) GENDERS
          then profile_form users to_int timestamp
                 (AskRoom full_name student_id age a) said rest
          else profile_form users to_int timestamp
                 (AskGender full_name student_id age) said rest
      | AskRoom full_name student_id age gender =>
          if blank a
          then profile_form users to_int timestamp AskName
                 (said ++ [RoomEmpty]) rest
          else
            Created (said ++ [ProfileCreated]) student_id
              (users
               ++ [mk_user student_id full_name age gender a timestamp
                     timestamp])
      end
  end.

Definition create_new_profile (users : list user_row)
    (to_int : str -> option Z) (timestamp : str) (typed : list str)
    : profile_result :=
  profile_form users to_int timestamp AskName [] typed.

(** What a row of [users] has when the form let it through. *)
Definition valid_user (users : list user_row) (u : user_row) : Prop :=
  blank (user_full_name u) = false
  /\ blank (user_student_id u) = false
  /\ registered users (user_student_id u) = false
  /\ 0 <= user_age u <= 120
  /\ In (user_gender u) GENDERS
  /\ blank (user_hostel_room u) = false
  /\ user_created_at u = user_last_login u.

(** The answers a state holds passed their checks. *)
Definition state_ok (users : list user_row) (st : form_state) : Prop :=
  match st with
  | AskName => True
  | AskStudentId full_name => blank full_name = false
  | AskAge full_name student_id =>
      blank full_name = false /\ blank student_id = false
      /\ registered users student_id = false
  | AskGender full_name student_id age =>
      blank full_name = false /\ blank student_id = false
      /\ registered users student_id = false /\ 0 <= age <= 120
  | AskRoom full_name student_id age gender =>
      blank full_name = false /\ blank student_id = false
      /\ registered users student_id = false /\ 0 <= age <= 120
      /\ In gender GENDERS
  end.

(** *** [delete_last_entry] *)

(** The [sessions] table: each row under the key [id] the table gave it. *)
Definition sessions_table : Type := list (Z * session_row).

(** [delete_last_entry]: [last_id] is what the [SELECT] of the newest row of
    the student returned ([None] when it found none), [confirm] the answer
    to the question that is asked once a row was found.  The [DELETE] names
    the key and the student. *)
Definition delete_last_entry (table : sessions_table) (student_id : str)
    (last_id : option Z) (confirm : bool) : sessions_table :=
  match last_id with
  | Some id =>
      if confirm
      then
        filter
          (fun r =>
             negb ((fst r =? id)
                   && str_eqb (row_student_id (snd r)) student_id))
          table
      else table
  | None => table
  end.

(** ** The platform as a parameter

    [str.lower] and [str.isdigit] read the Unicode tables of the interpreter,
    the console renders every line that carries a text as markup and raises
    when it cannot, and the store raises on a value it cannot hold.  The
    definitions of this section take these four as they come: [lower_fn] for
    [str.lower], [isdigit_fn] for [isdigit] on one character, [renders] for
    whether the console prints a line and [accepts] for whether the store
    takes a row. *)

Inductive flow_status : Type :=
  | Finished
  | AtPrompt
  | Raises.

Record flow : Type := mk_flow {
  steps : list step;
  status : flow_status
}.

Section Platform.

Variable lower_fn : str -> str.
Variable isdigit_fn : char -> bool.
Variable renders : message -> bool.
Variable accepts : session_row -> bool.

(** [analyze_symptoms], with the lower-casing of the platform. *)
Definition analyze_symptoms_with (symptoms : str) (db : symptoms_db)
    : list str * Z :=
  let symptoms_lower := lower_fn symptoms in
  fold_left
    (fun acc item =>
       let '(condition, data) := item in
       scan_condition symptoms_lower data acc)
    db ([], 0).

Definition matching_pairs_with (symptoms : str) (db : symptoms_db)
    : list (str * entry * str) :=
  filter (matches (lower_fn symptoms)) (table_pairs db).

Definition contains_nocase_with (k s : str) : bool :=
  contains (lower_fn k) (lower_fn s).

(** [validate_symptoms], with the digits of the platform. *)
Definition validate_symptoms_with (symptoms : str) : bool :=
  if len symptoms <? 3 then false
  else if existsb isdigit_fn symptoms then false
  else true.

Definition validate_says_with (symptoms : str) : list message :=
  if len symptoms <? 3 then [TooShort]
  else if existsb isdigit_fn symptoms then [AvoidNumbers]
  else [].

(** [load_symptoms_db]: the handler prints the text of the exception; when
    the console raises on that line the exception leaves the function
    ([None]). *)
Definition load_symptoms_db_or_raise (file : load_outcome)
    : list step * option symptoms_db :=
  match file with
  | Loaded db => ([Say DbLoaded], Some db)
  | ParseRaises e =>
      if renders (DbLoadError e)
      then ([Say DbLoaded; Say (DbLoadError e)], Some [])
      else ([Say DbLoaded], None)
  | OpenRaises e =>
      if renders (DbLoadError e)
      then ([Say (DbLoadError e)], Some [])
      else ([], None)
  end.

(** [get_gemini_response]: the handler of a failed call prints the text of
    the exception before it returns the fall-back; [None] when the console
    raises on that line. *)
Definition get_gemini_response_or_raise
    (generate : str -> list str -> generated) (symptoms : str)
    (kws : list str) : option advice :=
  match generate symptoms kws with
  | Text _ => Some (get_gemini_response generate symptoms kws)
  | Raised e =>
      if renders (AiError e)
      then Some (get_gemini_response generate symptoms kws)
      else None
  end.

(** [display_response]: the panel holds the symptoms, the keywords, the
    verdict and the advice in its cells; [None] when the console raises on
    it, and then nothing of it is shown. *)
Definition display_response_or_raise (symptoms : str) (kws : list str)
    (score : Z) (verdict : str) (response : advice)
    : option (list message) :=
  let urgent := score >? 5 in
  if renders (AdvicePanel urgent symptoms kws score verdict response)
  then
    Some
      [AdvicePanel urgent symptoms kws score verdict response;
       if urgent then SeekAttention else FollowRemedy]
  else None.

(** The loop of [report_symptoms] with what can raise in the branch of an
    accepted answer: the handler of the generator, the panel, the insert.
    An exception leaves the loop and the function; nothing catches it
    there. *)
Fixpoint report_flow_loop (w : world) (student_id : str) (db : symptoms_db)
    (typed : list str) : flow :=
  match typed with
  | [] => mk_flow [Say ReportPanel; Ask] AtPrompt
  | symptoms :: rest =>
      if negb (validate_symptoms_with symptoms)
      then
        let again := report_flow_loop w student_id db rest in
        mk_flow
          ([Say ReportPanel; Ask]
           ++ map Say (validate_says_with symptoms ++ [InvalidInput])
           ++ steps again)
          (status again)
      else
        let kws := fst (analyze_symptoms_with symptoms db) in
        let score := snd (analyze_symptoms_with symptoms db) in
        let verdict := get_verdict score in
        let called :=
          [Say ReportPanel; Ask; CallAnalyze symptoms; Say (analyze_says kws);
           CallGenerate symptoms kws] in
        match get_gemini_response_or_raise (generate w) symptoms kws with
        | None => mk_flow called Raises
        | Some response =>
            let advised :=
              called ++ map Say (gemini_says (generate w symptoms kws)) in
            match
              display_response_or_raise symptoms kws score verdict response
            with
            | None => mk_flow advised Raises
            | Some shown =>
                let row :=
                  mk_row student_id (now w) symptoms kws score verdict
                    response in
                if accepts row
                then
                  mk_flow
                    (advised ++ map Say shown
                     ++ save_log (now w) symptoms kws score verdict response
                          student_id)
                    Finished
                else mk_flow (advised ++ map Say shown) Raises
            end
        end
  end.

Definition report_flow (w : world) (student_id : str) : flow :=
  match load_symptoms_db_or_raise (file w) with
  | (said, None) => mk_flow said Raises
  | (said, Some db) =>
      let r := report_flow_loop w student_id db (answers w) in
      mk_flow (said ++ steps r) (status r)
  end.

End Platform.

(** A console that renders every line but the panels whose symptoms hold
    [bad]. *)
Definition renders_unless_symptoms (bad : str) (m : message) : bool :=
  match m with
  | AdvicePanel _ symptoms _ _ _ _ => negb (contains bad symptoms)
  | _ => true
  end.

(** ** Strings: occurrence and case *)

Lemma startswith_spec p s :
  startswith p s = true <-> exists t, s = p ++ t.
Proof.
  revert s. induction p as [|a p IH]; intros s; simpl.
  - split; [intros _; now exists s | reflexivity].
  - destruct s as [|b s].
    + split; [discriminate | intros [t H]; discriminate].
    + rewrite andb_true_iff, N.eqb_eq, IH. split.
      * intros [-> [t ->]]. now exists t.
      * intros [t H]. injection H as -> ->. split; [reflexivity | now exists t].
Qed.

Lemma contains_spec k s :
  contains k s = true <-> exists a b, s = a ++ k ++ b.
Proof.
  induction s as [|c s IH]; simpl; rewrite orb_true_iff, startswith_spec.
  - split.
    + intros [[t H] | H]; [| discriminate]. now exists [], t.
    + intros [a [b H]]. left.
      destruct a; [now exists b |]. discriminate.
  - rewrite IH. split.
    + intros [[t H] | [a [b H]]].
      * now exists [], t.
      * exists (c :: a), b. simpl. now rewrite H.
    + intros [[|a0 a] [b H]].
      * left. now exists b.
      * right. injection H as _ H. now exists a, b.
Qed.

Lemma contains_empty s : contains [] s = true.
Proof. destruct s; reflexivity. Qed.

Lemma lower_char_idem c : lower_char (lower_char c) = lower_char c.
Proof.
  unfold lower_char at 2.
  destruct (between _ _ c || between _ _ c || between _ _ c) eqn:E;
    [| unfold lower_char; now rewrite E].
  unfold between in E.
  rewrite !orb_true_iff, !andb_true_iff, !N.leb_le in E.
  unfold lower_char, between.
  repeat match goal with
         | |- context [N.leb ?a ?b] => destruct (N.leb_spec a b)
         end; simpl; try reflexivity; lia.
Qed.

Lemma lower_idem s : lower (lower s) = lower s.
Proof.
  unfold lower. rewrite map_map.
  apply map_ext. intros c. apply lower_char_idem.
Qed.

Lemma lower_app s t : lower (s ++ t) = lower s ++ lower t.
Proof. apply map_app. Qed.

(** A piece of a lower-cased text is its own lower-case form. *)
Lemma contains_lower_fixed k s :
  contains k (lower s) = true -> lower k = k.
Proof.
  rewrite contains_spec. intros [a [b H]].
  unfold lower in H.
  apply map_eq_app in H as [a' [r [_ [_ H]]]].
  apply map_eq_app in H as [k' [b' [_ [H _]]]].
  rewrite <- H. apply lower_idem.
Qed.

(** Occurrence with the case disregarded, said with the pieces of the text:
    some piece of [s] and [k] have the same lower-case form. *)
Lemma contains_nocase_spec k s :
  contains_nocase k s = true <->
  exists a piece b, s = a ++ piece ++ b /\ lower piece = lower k.
Proof.
  unfold contains_nocase. rewrite contains_spec. split.
  - intros [a [b H]]. unfold lower in H at 1.
    apply map_eq_app in H as [a' [r [-> [_ H]]]].
    apply map_eq_app in H as [piece [b' [-> [H _]]]].
    now exists a', piece, b'.
  - intros [a [piece [b [-> H]]]].
    exists (lower a), (lower b). now rewrite !lower_app, H.
Qed.

(** ** The scorer as a sum over the table *)

Lemma sum_Z_app l1 l2 : sum_Z (l1 ++ l2) = sum_Z l1 + sum_Z l2.
Proof. induction l1 as [|x l1 IH]; simpl; [reflexivity | rewrite IH; lia]. Qed.

Lemma scan_condition_pairs symptoms_lower condition data kws score :
  let hit :=
    filter (matches symptoms_lower)
      (map (fun k => (condition, data, k)) (keywords data)) in
  scan_condition symptoms_lower data (kws, score) =
  (kws ++ map pair_keyword hit, score + sum_Z (map pair_weight hit)).
Proof.
  unfold scan_condition. simpl.
  generalize (keywords data) as ks. intros ks. revert kws score.
  induction ks as [|k ks IH]; intros kws score; simpl.
  - now rewrite app_nil_r, Z.add_0_r.
  - change (matches symptoms_lower (condition, data, k))
      with (contains k symptoms_lower).
    destruct (contains k symptoms_lower); simpl.
    + rewrite IH, <- app_assoc. simpl. f_equal.
      change (pair_weight (condition, data, k)) with (weight data). lia.
    + apply IH.
Qed.

Lemma analyze_fold symptoms_lower db kws score :
  let hit := filter (matches symptoms_lower) (table_pairs db) in
  fold_left
    (fun acc item =>
       let '(condition, data) := item in
       scan_condition symptoms_lower data acc)
    db (kws, score) =
  (kws ++ map pair_keyword hit, score + sum_Z (map pair_weight hit)).
Proof.
  simpl. revert kws score.
  induction db as [|[condition data] db IH]; intros kws score; simpl.
  - now rewrite app_nil_r, Z.add_0_r.
  - rewrite (scan_condition_pairs symptoms_lower condition data), IH.
    rewrite filter_app, !map_app, <- app_assoc, sum_Z_app. f_equal. lia.
Qed.

Lemma analyze_pairs symptoms db :
  analyze_symptoms symptoms db =
  (map pair_keyword (matching_pairs symptoms db),
   sum_Z (map pair_weight (matching_pairs symptoms db))).
Proof.
  unfold analyze_symptoms. simpl.
  rewrite (analyze_fold (lower symptoms) db [] 0). reflexivity.
Qed.

Lemma matching_pairs_app symptoms db1 db2 :
  matching_pairs symptoms (db1 ++ db2) =
  matching_pairs symptoms db1 ++ matching_pairs symptoms db2.
Proof.
  unfold matching_pairs, table_pairs.
  now rewrite flat_map_app, filter_app.
Qed.

Lemma analyze_app symptoms db1 db2 :
  analyze_symptoms symptoms (db1 ++ db2) =
  (fst (analyze_symptoms symptoms db1) ++ fst (analyze_symptoms symptoms db2),
   snd (analyze_symptoms symptoms db1) + snd (analyze_symptoms symptoms db2)).
Proof.
  rewrite !analyze_pairs, matching_pairs_app. simpl.
  now rewrite !map_app, sum_Z_app.
Qed.

Lemma in_matching_pairs symptoms db condition data k :
  In (condition, data, k) (matching_pairs symptoms db) <->
  In (condition, data) db /\ In k (keywords data)
  /\ contains k (lower symptoms) = true.
Proof.
  unfold matching_pairs, table_pairs.
  rewrite filter_In, in_flat_map. unfold pair_keyword. simpl. split.
  - intros [[[c d] [Hin Hk]] Hc]. simpl in Hk.
    apply in_map_iff in Hk as [k' [E Hk']].
    injection E as -> -> ->. auto.
  - intros [Hin [Hk Hc]]. split; [| exact Hc].
    exists (condition, data). split; [exact Hin |].
    simpl. apply in_map_iff. now exists k.
Qed.

Lemma sum_Z_nonneg l : Forall (fun z => 0 <= z) l -> 0 <= sum_Z l.
Proof. induction 1; simpl; lia. Qed.

(** One condition alone: its keywords that occur in the text, each worth the
    weight of the condition. *)
Lemma scan_condition_count symptoms_lower data :
  let hit := filter (fun k => contains k symptoms_lower) (keywords data) in
  scan_condition symptoms_lower data ([], 0) =
  (hit, weight data * Z.of_nat (List.length hit)).
Proof.
  simpl.
  rewrite (scan_condition_pairs symptoms_lower [] data [] 0). simpl.
  induction (keywords data) as [|k ks IH]; simpl; [f_equal; lia |].
  change (matches symptoms_lower ([], data, k))
    with (contains k symptoms_lower).
  destruct (contains k symptoms_lower); [| exact IH].
  injection IH as IH1 IH2. simpl. rewrite IH1. f_equal.
  change (pair_weight ([], data, k)) with (weight data). lia.
Qed.

Lemma analyze_single symptoms condition data :
  let hit := filter (fun k => contains k (lower symptoms)) (keywords data) in
  analyze_symptoms symptoms [(condition, data)] =
  (hit, weight data * Z.of_nat (List.length hit)).
Proof. apply scan_condition_count. Qed.

(** The order in which the table holds its conditions does not change the
    score. *)
Lemma analyze_score_cons symptoms item db :
  snd (analyze_symptoms symptoms (item :: db)) =
  snd (analyze_symptoms symptoms [item]) + snd (analyze_symptoms symptoms db).
Proof.
  change (item :: db) with ([item] ++ db).
  now rewrite analyze_app.
Qed.

(** ** The advice parser *)

Lemma split_from_absent sep cur s :
  contains sep s = false -> split_from sep 0 cur s = [cur ++ s].
Proof.
  revert cur. induction s as [|c s IH]; intros cur H.
  - simpl. now rewrite app_nil_r.
  - change (contains sep (c :: s))
      with (startswith sep (c :: s) || contains sep s) in H.
    apply orb_false_iff in H as [Hs Hc].
    change (split_from sep 0 cur (c :: s))
      with (if startswith sep (c :: s)
            then cur :: split_from sep (Nat.pred (List.length sep)) [] s
            else split_from sep 0 (cur ++ [c]) s).
    rewrite Hs, (IH (cur ++ [c]) Hc), <- app_assoc. reflexivity.
Qed.

Lemma split_absent sep s : contains sep s = false -> split sep s = [s].
Proof. intros H. unfold split. now rewrite split_from_absent. Qed.

Lemma parse_remedy_absent text :
  contains REMEDY_LABEL text = false -> parse_remedy text = None.
Proof. intros H. unfold parse_remedy. now rewrite split_absent. Qed.

Lemma parse_doctor_advice_absent text :
  contains DOCTOR_LABEL text = false -> parse_doctor_advice text = None.
Proof. intros H. unfold parse_doctor_advice. now rewrite split_absent. Qed.

(** ** The report loop *)

Lemma inserted_app t1 t2 : inserted (t1 ++ t2) = inserted t1 ++ inserted t2.
Proof.
  induction t1 as [|x t1 IH]; simpl; [reflexivity |].
  destruct x; simpl; now rewrite IH.
Qed.

Lemma analyzed_app t1 t2 : analyzed (t1 ++ t2) = analyzed t1 ++ analyzed t2.
Proof.
  induction t1 as [|x t1 IH]; simpl; [reflexivity |].
  destruct x; simpl; now rewrite IH.
Qed.

Lemma inserted_say l : inserted (map Say l) = [].
Proof. induction l; simpl; auto. Qed.

Lemma analyzed_say l : analyzed (map Say l) = [].
Proof. induction l; simpl; auto. Qed.

Lemma report_loop_rejected w student_id db symptoms rest :
  validate_symptoms symptoms = false ->
  report_loop w student_id db (symptoms :: rest) =
  mk_run
    ([Say ReportPanel; Ask]
     ++ map Say (validate_says symptoms ++ [InvalidInput])
     ++ trace (report_loop w student_id db rest))
    (finished (report_loop w student_id db rest)).
Proof.
  intros H. simpl. rewrite H. simpl.
  now rewrite map_app, <- app_assoc.
Qed.

Lemma report_loop_accepted w student_id db symptoms rest :
  validate_symptoms symptoms = true ->
  let kws := fst (analyze_symptoms symptoms db) in
  let score := snd (analyze_symptoms symptoms db) in
  let verdict := get_verdict score in
  let response := get_gemini_response (generate w) symptoms kws in
  report_loop w student_id db (symptoms :: rest) =
  mk_run
    ([Say ReportPanel; Ask]
     ++ [CallAnalyze symptoms; Say (analyze_says kws)]
     ++ [CallGenerate symptoms kws]
     ++ map Say (gemini_says (generate w symptoms kws))
     ++ map Say (display_response symptoms kws score verdict response)
     ++ save_log (now w) symptoms kws score verdict response student_id)
    true.
Proof.
  intros H. simpl. rewrite H. simpl.
  now destruct (analyze_symptoms symptoms db) as [kws score].
Qed.

(** ** The scorer and the flow on any platform *)

Lemma analyze_symptoms_with_lower symptoms db :
  analyze_symptoms_with lower symptoms db = analyze_symptoms symptoms db.
Proof. reflexivity. Qed.

Lemma analyze_with_pairs lower_fn symptoms db :
  analyze_symptoms_with lower_fn symptoms db =
  (map pair_keyword (matching_pairs_with lower_fn symptoms db),
   sum_Z (map pair_weight (matching_pairs_with lower_fn symptoms db))).
Proof.
  unfold analyze_symptoms_with. simpl.
  rewrite (analyze_fold (lower_fn symptoms) db [] 0). reflexivity.
Qed.

Lemma in_matching_pairs_with lower_fn symptoms db condition data k :
  In (condition, data, k) (matching_pairs_with lower_fn symptoms db) <->
  In (condition, data) db /\ In k (keywords data)
  /\ contains k (lower_fn symptoms) = true.
Proof.
  unfold matching_pairs_with, table_pairs.
  rewrite filter_In, in_flat_map. unfold matches, pair_keyword. simpl. split.
  - intros [[[c d] [Hin Hk]] Hc]. simpl in Hk.
    apply in_map_iff in Hk as [k' [E Hk']].
    injection E as -> -> ->. auto.
  - intros [Hin [Hk Hc]]. split; [| exact Hc].
    exists (condition, data). split; [exact Hin |].
    simpl. apply in_map_iff. now exists k.
Qed.

(** No keyword of the table in the lower-cased input: nothing is matched. *)
Lemma analyze_with_no_match lower_fn symptoms db :
  (forall condition data k,
     In (condition, data) db -> In k (keywords data) ->
     contains k (lower_fn symptoms) = false) ->
  analyze_symptoms_with lower_fn symptoms db = ([], 0).
Proof.
  intros Hno. rewrite analyze_with_pairs.
  destruct (matching_pairs_with lower_fn symptoms db) as [|[[c d] k] l] eqn:E;
    [reflexivity |].
  exfalso.
  assert (Hin : In (c, d, k) (matching_pairs_with lower_fn symptoms db))
    by (rewrite E; now left).
  apply in_matching_pairs_with in Hin as [Hdb [Hk Hc]].
  rewrite (Hno c d k Hdb Hk) in Hc. discriminate.
Qed.

Section FlowLemmas.

Variable lower_fn : str -> str.
Variable isdigit_fn : char -> bool.
Variable renders : message -> bool.
Variable accepts : session_row -> bool.

Local Abbreviation loop :=
  (report_flow_loop lower_fn isdigit_fn renders accepts).

Lemma report_flow_loop_rejected w student_id db symptoms rest :
  validate_symptoms_with isdigit_fn symptoms = false ->
  loop w student_id db (symptoms :: rest) =
  mk_flow
    ([Say ReportPanel; Ask]
     ++ map Say (validate_says_with isdigit_fn symptoms ++ [InvalidInput])
     ++ steps (loop w student_id db rest))
    (status (loop w student_id db rest)).
Proof.
  intros H. cbn [report_flow_loop]. now rewrite H.
Qed.

(** The steps and the end of the branch of an accepted answer. *)
Lemma report_flow_loop_accepted w student_id db symptoms rest :
  validate_symptoms_with isdigit_fn symptoms = true ->
  let kws := fst (analyze_symptoms_with lower_fn symptoms db) in
  let score := snd (analyze_symptoms_with lower_fn symptoms db) in
  let verdict := get_verdict score in
  let called :=
    [Say ReportPanel; Ask; CallAnalyze symptoms; Say (analyze_says kws);
     CallGenerate symptoms kws] in
  exists said stored,
    steps (loop w student_id db (symptoms :: rest)) =
      called ++ map Say said ++ stored
    /\ (stored = []
        \/ (status (loop w student_id db (symptoms :: rest)) = Finished
            /\ exists response,
                 get_gemini_response_or_raise renders (generate w) symptoms
                   kws = Some response
                 /\ display_response_or_raise renders symptoms kws score
                      verdict response <> None
                 /\ accepts
                      (mk_row student_id (now w) symptoms kws score verdict
                         response) = true
                 /\ stored =
                    save_log (now w) symptoms kws score verdict response
                      student_id))
    /\ (stored = [] ->
        status (loop w student_id db (symptoms :: rest)) = Raises).
Proof.
  intros H. simpl. cbn [report_flow_loop]. rewrite H.
  cbn [negb].
  destruct (get_gemini_response_or_raise renders (generate w) symptoms
              (fst (analyze_symptoms_with lower_fn symptoms db)))
    as [response |] eqn:Eg.
  - destruct (display_response_or_raise renders symptoms _ _ _ response)
      as [shown |] eqn:Ed.
    + destruct (accepts _) eqn:Ea.
      * exists (gemini_says (generate w symptoms
                  (fst (analyze_symptoms_with lower_fn symptoms db)))
                ++ shown).
        eexists. split.
        { cbn [steps]. rewrite ?map_app, <- ?app_assoc. reflexivity. }
        split.
        { right. split; [reflexivity |]. exists response.
          rewrite Ed. repeat split; try assumption; discriminate. }
        { intros Hs. discriminate Hs. }
      * exists (gemini_says (generate w symptoms
                  (fst (analyze_symptoms_with lower_fn symptoms db)))
                ++ shown), [].
        split.
        { cbn [steps]. rewrite ?map_app, ?app_nil_r, <- ?app_assoc.
          reflexivity. }
        split; [now left | reflexivity].
    + exists (gemini_says (generate w symptoms
                (fst (analyze_symptoms_with lower_fn symptoms db)))), [].
      split; [cbn [steps]; rewrite ?app_nil_r; reflexivity |].
      split; [now left | reflexivity].
  - exists [], []. split; [reflexivity |]. split; [now left | reflexivity].
Qed.

Lemma report_flow_loop_prompts w student_id db typed :
  exists t,
    steps (loop w student_id db typed) = Say ReportPanel :: Ask :: t.
Proof.
  destruct typed as [|symptoms rest].
  - now exists [].
  - destruct (validate_symptoms_with isdigit_fn symptoms) eqn:E.
    + destruct (report_flow_loop_accepted w student_id db symptoms rest E)
        as [said [stored [Hs _]]].
      rewrite Hs. simpl. eauto.
    + rewrite (report_flow_loop_rejected w student_id db symptoms rest E).
      simpl. eauto.
Qed.

Lemma report_flow_loop_analyzed w student_id db typed :
  Forall (fun s => validate_symptoms_with isdigit_fn s = true)
    (analyzed (steps (loop w student_id db typed))).
Proof.
  induction typed as [|symptoms rest IH].
  - constructor.
  - destruct (validate_symptoms_with isdigit_fn symptoms) eqn:E.
    + destruct (report_flow_loop_accepted w student_id db symptoms rest E)
        as [said [stored [Hs [Hstored _]]]].
      rewrite Hs. simpl. constructor; [exact E |].
      rewrite analyzed_app, analyzed_say. simpl.
      destruct Hstored as [-> | [_ [response [_ [_ [_ ->]]]]]]; constructor.
    + rewrite (report_flow_loop_rejected w student_id db symptoms rest E).
      simpl. now rewrite analyzed_app, analyzed_say.
Qed.

(** The answers the gate rejects change neither the end of the loop nor
    what it stores. *)
Lemma report_flow_loop_skip w student_id db bad typed :
  Forall (fun s => validate_symptoms_with isdigit_fn s = false) bad ->
  status (loop w student_id db (bad ++ typed)) =
    status (loop w student_id db typed)
  /\ inserted (steps (loop w student_id db (bad ++ typed))) =
     inserted (steps (loop w student_id db typed)).
Proof.
  induction 1 as [|s bad Hs _ IH]; [split; reflexivity |].
  simpl app. rewrite (report_flow_loop_rejected w student_id db s _ Hs).
  simpl. now rewrite inserted_app, inserted_say.
Qed.

End FlowLemmas.

(** ** The model at work *)

Example split_pieces :
  split (lit "ab") (lit "xabyabz") = [lit "x"; lit "y"; lit "z"]
  /\ split (lit "aa") (lit "aaa") = [lit ""; lit "a"]
  /\ split (lit "ab") (lit "xyz") = [lit "xyz"].
Proof. repeat split. Qed.

Example strip_both_ends :
  strip (lit "  Rest well ") = lit "Rest well".
Proof. reflexivity. Qed.

Example lower_latin :
  lower (lit "High FEVER") = lit "high fever"
  /\ lower [0xc9%N; 0xd7%N; 0xdf%N] = [0xe9%N; 0xd7%N; 0xdf%N].
Proof. split; reflexivity. Qed.

Example advice_well_formed :
  get_gemini_response
    (fun _ _ =>
       Text (REMEDY_LABEL ++ lit " Rest and drink water  "
             ++ DOCTOR_LABEL ++ lit " If the fever lasts three days "))
    (lit "fever") [lit "fever"]
  = mk_advice (lit "Rest and drink water")
      (lit "If the fever lasts three days").
Proof. reflexivity. Qed.

Example advice_without_remedy_heading :
  get_gemini_response
    (fun _ _ => Text (DOCTOR_LABEL ++ lit " If the fever lasts three days"))
    (lit "fever") [lit "fever"]
  = mk_advice REMEDY_UNPARSED (lit "If the fever lasts three days").
Proof. reflexivity. Qed.

Example validate_examples :
  validate_symptoms (lit "ab") = false
  /\ validate_symptoms (lit "abc") = true
  /\ validate_symptoms (lit "flu 2 days") = false
  /\ validate_symptoms [0x61%N; 0x62%N; 0xb2%N] = false.
Proof. repeat split. Qed.

Example rejected_then_accepted :
  report_flow lower isdigit (fun _ => true) (fun _ => true)
    (sample_world (Loaded sample_db) [lit "a1"; lit "chills"]
       (Raised (lit "timeout")))
    (lit "S1")
  = mk_flow
      [ Say DbLoaded;
        Say ReportPanel; Ask; Say TooShort; Say InvalidInput;
        Say ReportPanel; Ask;
        CallAnalyze (lit "chills"); Say (FoundKeywords 1);
        CallGenerate (lit "chills") [lit "chills"];
        Say (AiError (lit "timeout"));
        Say (AdvicePanel false (lit "chills") [lit "chills"] 2 HOME_CARE
               (mk_advice REMEDY_ERROR DOCTOR_ERROR));
        Say FollowRemedy;
        Insert (mk_row (lit "S1") (lit "2024-01-15 09:30:00") (lit "chills")
                  [lit "chills"] 2 HOME_CARE
                  (mk_advice REMEDY_ERROR DOCTOR_ERROR));
        Say LogSaved; Say ViewLater ]
      Finished.
Proof. reflexivity. Qed.

Example panel_that_does_not_render :
  report_flow lower isdigit (renders_unless_symptoms (lit "[/b]"))
    (fun _ => true)
    (sample_world (Loaded sample_db) [lit "my arm [/b] hurts"]
       (Text (REMEDY_LABEL ++ lit " Rest " ++ DOCTOR_LABEL ++ lit " Soon")))
    (lit "S1")
  = mk_flow
      [ Say DbLoaded;
        Say ReportPanel; Ask;
        CallAnalyze (lit "my arm [/b] hurts"); Say NoMatchingKeywords;
        CallGenerate (lit "my arm [/b] hurts") [] ]
      Raises.
Proof. reflexivity. Qed.

(** ** The claims *)

(** C1.  For every table and every input, [analyze_symptoms] returns the
    keywords of the (condition, keyword) pairs of the table whose keyword
    occurs in the lower-cased input, in the order the table is walked, and as
    score the sum of the weights of the conditions of these pairs.  A keyword
    held by two conditions is two pairs: it is listed twice and both weights
    are added. *)
Theorem analyze_symptoms_sum_of_matching_pairs :
  (forall symptoms db,
     analyze_symptoms symptoms db =
     (map pair_keyword (matching_pairs symptoms db),
      sum_Z (map pair_weight (matching_pairs symptoms db))))
  /\ (forall symptoms c1 c2 k w1 w2,
        analyze_symptoms symptoms
          [(c1, mk_entry [k] w1); (c2, mk_entry [k] w2)] =
        if contains k (lower symptoms) then ([k; k], w1 + w2) else ([], 0)).
Proof.
  split.
  - exact analyze_pairs.
  - intros symptoms c1 c2 k w1 w2.
    unfold analyze_symptoms, scan_condition. simpl.
    destruct (contains k (lower symptoms)); reflexivity.
Qed.

(** C2.  [get_verdict] returns the Home Care literal for a score below 3, the
    Monitor literal for a score from 3 to 5 and the Urgent Care literal for a
    score above 5; 2 is Home Care, 3 and 5 are Monitor, 6 is Urgent Care.
    Each literal is the band's name behind its coloured circle. *)
Theorem get_verdict_bands :
  (forall score,
     (score < 3 -> get_verdict score = HOME_CARE)
     /\ (3 <= score <= 5 -> get_verdict score = MONITOR)
     /\ (score > 5 -> get_verdict score = URGENT_CARE))
  /\ get_verdict 2 = 0x1f7e2%N :: lit " Home Care"
  /\ get_verdict 3 = 0x1f7e1%N :: lit " Monitor"
  /\ get_verdict 5 = 0x1f7e1%N :: lit " Monitor"
  /\ get_verdict 6 = 0x1f534%N :: lit " Urgent Care".
Proof.
  split; [| repeat split; reflexivity].
  intros score. unfold get_verdict.
  destruct (Z.ltb_spec score 3), (Z.leb_spec 3 score), (Z.leb_spec score 5);
    simpl; repeat split; intros; try reflexivity; lia.
Qed.

(** The bands of [get_verdict] at the two inner boundaries and beyond. *)
Lemma get_verdict_bands_witness :
  get_verdict 2 = HOME_CARE /\ get_verdict 5 = MONITOR
  /\ get_verdict 6 = URGENT_CARE.
Proof.
  pose proof (proj1 get_verdict_bands) as H.
  split; [| split].
  - apply (proj1 (H 2)). lia.
  - apply (proj1 (proj2 (H 5))). lia.
  - apply (proj2 (proj2 (H 6))). lia.
Defined.

(** C3, as the specification states it, fails: the keyword [Fever] of the
    table occurs in the input [fever] once the case of both is disregarded,
    and [analyze_symptoms] neither lists it nor adds the weight. *)
Lemma keyword_case_counterexample :
  let db := [(lit "fever", mk_entry [lit "Fever"] 2)] in
  In (lit "fever", mk_entry [lit "Fever"] 2) db
  /\ In (lit "Fever") (keywords (mk_entry [lit "Fever"] 2))
  /\ contains_nocase (lit "Fever") (lit "fever") = true
  /\ ~ In (lit "Fever") (fst (analyze_symptoms (lit "fever") db))
  /\ analyze_symptoms (lit "fever") db = ([], 0).
Proof.
  repeat split; try (now left).
  intros H. exact H.
Qed.

(** C3, amended.  Only the input is lower-cased, whatever the lower-casing
    of the platform is.  A keyword of a condition of the table is matched
    (its pair is among the matching pairs, whose keywords are the list
    returned and whose weights add up to the score) exactly when it occurs,
    as the table writes it, in the lower-cased input.  For a keyword that is
    its own lower-case form this is occurrence with the case of both
    disregarded. *)
Theorem keyword_match_lowercased_input :
  forall (lower_fn : str -> str) symptoms db condition data k,
    In (condition, data) db ->
    In k (keywords data) ->
    (In (condition, data, k) (matching_pairs_with lower_fn symptoms db)
     <-> contains k (lower_fn symptoms) = true)
    /\ (In k (fst (analyze_symptoms_with lower_fn symptoms db))
        <-> contains k (lower_fn symptoms) = true)
    /\ analyze_symptoms_with lower_fn symptoms db =
       (map pair_keyword (matching_pairs_with lower_fn symptoms db),
        sum_Z (map pair_weight (matching_pairs_with lower_fn symptoms db)))
    /\ (lower_fn k = k ->
        (contains k (lower_fn symptoms) = true
         <-> contains_nocase_with lower_fn k symptoms = true)).
Proof.
  intros lower_fn symptoms db condition data k Hdb Hk.
  assert (Hpair : In (condition, data, k)
                    (matching_pairs_with lower_fn symptoms db)
                  <-> contains k (lower_fn symptoms) = true).
  { rewrite in_matching_pairs_with. tauto. }
  split; [exact Hpair |]. split; [| split].
  - rewrite analyze_with_pairs. simpl. rewrite in_map_iff. split.
    + intros [[[c d] k'] [E Hin]]. unfold pair_keyword in E. simpl in E.
      subst k'. now apply in_matching_pairs_with in Hin.
    + intros H. exists (condition, data, k). split; [reflexivity |].
      now apply Hpair.
  - apply analyze_with_pairs.
  - intros Hlow. unfold contains_nocase_with. now rewrite Hlow.
Qed.

(** The keyword [fever] on the input [High FEVER], lower-cased by [lower]. *)
Lemma keyword_match_lowercased_input_witness :
  (In (lit "fever")
     (fst (analyze_symptoms (lit "High FEVER")
             [(lit "fever", mk_entry [lit "fever"] 2)]))
   <-> contains (lit "fever") (lower (lit "High FEVER")) = true)
  /\ (contains (lit "fever") (lower (lit "High FEVER")) = true
      <-> contains_nocase (lit "fever") (lit "High FEVER") = true).
Proof.
  pose proof (keyword_match_lowercased_input lower (lit "High FEVER")
                [(lit "fever", mk_entry [lit "fever"] 2)]
                (lit "fever") (mk_entry [lit "fever"] 2) (lit "fever")
                (or_introl eq_refl) (or_introl eq_refl)) as H.
  split.
  - exact (proj1 (proj2 H)).
  - exact (proj2 (proj2 (proj2 H)) eq_refl).
Defined.

(** C4.  On the table with fever (keywords fever and chills, weight 2) and
    cold (keyword cough, weight 1), the input [I have a fever and a cough]
    gives the keywords fever, cough in that order and the score 3, and the
    verdict of that score is Monitor. *)
Theorem fever_and_cough_scenario :
  let db := [ (lit "fever", mk_entry [lit "fever"; lit "chills"] 2);
              (lit "cold", mk_entry [lit "cough"] 1) ] in
  let result := analyze_symptoms (lit "I have a fever and a cough") db in
  result = ([lit "fever"; lit "cough"], 3)
  /\ get_verdict (snd result) = MONITOR
  /\ MONITOR = 0x1f7e1%N :: lit " Monitor".
Proof. repeat split. Qed.

(** C5.  When no keyword of the table occurs in the input with the case
    disregarded, [analyze_symptoms] returns the empty list and the score 0:
    a value like any other, the function has no failing case.  This holds
    with the lower-casing of any platform on which a piece of a lower-cased
    text is its own lower-case form, as it is in Python, where a lower-cased
    character stays as it is when lower-cased again; and with any
    lower-casing at all, nothing is matched when no keyword occurs in the
    lower-cased input. *)
Theorem no_match_gives_empty_and_zero :
  forall lower_fn : str -> str,
    (forall symptoms db,
       (forall condition data k,
          In (condition, data) db -> In k (keywords data) ->
          contains k (lower_fn symptoms) = false) ->
       analyze_symptoms_with lower_fn symptoms db = ([], 0))
    /\ ((forall text piece,
           contains piece (lower_fn text) = true -> lower_fn piece = piece) ->
        forall symptoms db,
          (forall condition data k,
             In (condition, data) db -> In k (keywords data) ->
             contains_nocase_with lower_fn k symptoms = false) ->
          analyze_symptoms_with lower_fn symptoms db = ([], 0)).
Proof.
  intros lower_fn. split.
  - apply analyze_with_no_match.
  - intros Hfixed symptoms db Hno.
    apply analyze_with_no_match.
    intros condition data k Hdb Hk.
    destruct (contains k (lower_fn symptoms)) eqn:E; [| reflexivity].
    rewrite <- (Hno condition data k Hdb Hk).
    unfold contains_nocase_with.
    now rewrite (Hfixed symptoms k E).
Qed.

(** The input [I feel fine] on a table with fever and cough, lower-cased by
    [lower]. *)
Lemma no_match_gives_empty_and_zero_witness :
  analyze_symptoms (lit "I feel fine")
    [ (lit "fever", mk_entry [lit "fever"; lit "chills"] 2);
      (lit "cold", mk_entry [lit "cough"] 1) ]
  = ([], 0).
Proof.
  apply (proj2 (no_match_gives_empty_and_zero lower)
           (fun text piece => contains_lower_fixed piece text)
           (lit "I feel fine")).
  intros condition data k Hdb Hk.
  destruct Hdb as [E | [E | []]]; injection E as <- <-; simpl in Hk;
    repeat (destruct Hk as [<- | Hk]; [reflexivity |]); destruct Hk.
Defined.

(** C6.  When the table file cannot be opened or read, [load_symptoms_db]
    returns the empty table; and on the empty table every input gives no
    keyword, the score 0 and the Home Care verdict. *)
Theorem load_failure_gives_empty_table :
  (forall file, load_failed file = true -> load_symptoms_db file = [])
  /\ (forall symptoms,
        analyze_symptoms symptoms [] = ([], 0)
        /\ get_verdict (snd (analyze_symptoms symptoms [])) = HOME_CARE
        /\ HOME_CARE = 0x1f7e2%N :: lit " Home Care").
Proof.
  split.
  - intros [e | e | db] H; [reflexivity | reflexivity | discriminate].
  - intros symptoms. repeat split; reflexivity.
Qed.

(** A missing table file, and a file that does not parse. *)
Lemma load_failure_gives_empty_table_witness :
  load_symptoms_db (OpenRaises (lit "No such file")) = []
  /\ load_symptoms_db (ParseRaises (lit "Expecting value")) = []
  /\ analyze_symptoms (lit "I have a fever")
       (load_symptoms_db (OpenRaises (lit "No such file"))) = ([], 0).
Proof.
  split; [| split].
  - apply (proj1 load_failure_gives_empty_table). reflexivity.
  - apply (proj1 load_failure_gives_empty_table). reflexivity.
  - exact (proj1 (proj2 load_failure_gives_empty_table (lit "I have a fever"))).
Defined.

(** C7.  With the digits of any platform, [validate_symptoms] rejects a
    text exactly when it has fewer than 3 characters or holds a digit.  On a
    rejected answer the loop of [report_symptoms] prints its complaint and
    starts over at the prompt with the next answer; and every text a run
    hands to the scorer was accepted by the gate, however the run ends. *)
Theorem validate_symptoms_gate :
  forall isdigit_fn : char -> bool,
    (forall symptoms,
       validate_symptoms_with isdigit_fn symptoms = false <->
       (len symptoms < 3
        \/ exists c, In c symptoms /\ isdigit_fn c = true))
    /\ (forall lower_fn renders accepts w student_id db symptoms rest,
          validate_symptoms_with isdigit_fn symptoms = false ->
          exists said again,
            report_flow_loop lower_fn isdigit_fn renders accepts w student_id
              db (symptoms :: rest) =
            mk_flow ([Say ReportPanel; Ask] ++ map Say said
                     ++ Say ReportPanel :: Ask :: again)
              (status
                 (report_flow_loop lower_fn isdigit_fn renders accepts w
                    student_id db rest))
            /\ steps
                 (report_flow_loop lower_fn isdigit_fn renders accepts w
                    student_id db rest) =
               Say ReportPanel :: Ask :: again)
    /\ (forall lower_fn renders accepts w student_id symptoms,
          In symptoms
            (analyzed
               (steps
                  (report_flow lower_fn isdigit_fn renders accepts w
                     student_id))) ->
          validate_symptoms_with isdigit_fn symptoms = true).
Proof.
  intros isdigit_fn. split; [| split].
  - intros symptoms. unfold validate_symptoms_with.
    destruct (Z.ltb_spec (len symptoms) 3) as [Hlen | Hlen].
    + split; auto.
    + destruct (existsb isdigit_fn symptoms) eqn:E.
      * split; [| reflexivity]. intros _. right.
        now apply existsb_exists in E.
      * split; [discriminate |]. intros [H | H]; [lia |].
        apply existsb_exists in H. congruence.
  - intros lower_fn renders accepts w student_id db symptoms rest H.
    destruct (report_flow_loop_prompts lower_fn isdigit_fn renders accepts
                w student_id db rest) as [again Hagain].
    exists (validate_says_with isdigit_fn symptoms ++ [InvalidInput]), again.
    split; [| exact Hagain].
    rewrite (report_flow_loop_rejected lower_fn isdigit_fn renders accepts
               w student_id db symptoms rest H).
    now rewrite Hagain.
  - intros lower_fn renders accepts w student_id symptoms Hin.
    unfold report_flow in Hin.
    destruct (load_symptoms_db_or_raise renders (file w)) as [said [db |]]
      eqn:El; cbn [steps] in Hin.
    + assert (Hsaid : analyzed said = []).
      { unfold load_symptoms_db_or_raise in El.
        destruct (file w) as [e | e | db0];
          try destruct (renders (DbLoadError e));
          injection El as <- _; reflexivity. }
      rewrite analyzed_app, Hsaid in Hin. simpl in Hin.
      pose proof (report_flow_loop_analyzed lower_fn isdigit_fn renders
                    accepts w student_id db (answers w)) as Hall.
      rewrite Forall_forall in Hall. now apply Hall.
    + exfalso.
      unfold load_symptoms_db_or_raise in El.
      destruct (file w) as [e | e | db0];
        try destruct (renders (DbLoadError e));
        injection El as <-; destruct Hin.
Qed.

(** With the digits of [isdigit]: the answer [flu 2 days] is long enough
    and is rejected for its digit, and the answer [I have a fever], typed
    after it, is the one that reaches the scorer. *)
Lemma validate_symptoms_gate_witness :
  (3 <= len (lit "flu 2 days")
   /\ (len (lit "flu 2 days") < 3
       \/ exists c, In c (lit "flu 2 days") /\ isdigit c = true))
  /\ validate_symptoms_with isdigit (lit "I have a fever") = true.
Proof.
  split; [split |].
  - vm_compute. discriminate.
  - apply (proj1 (proj1 (validate_symptoms_gate isdigit) (lit "flu 2 days"))).
    reflexivity.
  - apply (proj2 (proj2 (validate_symptoms_gate isdigit))
             lower (fun _ => true) (fun _ => true)
             (sample_world (Loaded sample_db)
                [lit "flu 2 days"; lit "I have a fever"]
                (Raised (lit "timeout")))
             (lit "S1")).
    left. reflexivity.
Defined.

(** C8.  What a failed generator leads to, with the table loaded and an
    answer the gate accepts.  The handler prints the text of the exception,
    the panel shows the symptoms and the fall-back advice, the row is
    inserted: when the console renders both and the store takes the row, the
    run finishes and the one row stored holds the score, the verdict and the
    two fall-back strings; when one of the three raises, the exception
    leaves [report_symptoms] and no row is stored. *)
Theorem advice_failure_outcomes :
  forall lower_fn isdigit_fn renders accepts w student_id db bad symptoms
         rest e,
    file w = Loaded db ->
    answers w = bad ++ symptoms :: rest ->
    Forall (fun s => validate_symptoms_with isdigit_fn s = false) bad ->
    validate_symptoms_with isdigit_fn symptoms = true ->
    let kws := fst (analyze_symptoms_with lower_fn symptoms db) in
    let score := snd (analyze_symptoms_with lower_fn symptoms db) in
    let verdict := get_verdict score in
    let fallback :=
      mk_advice (lit "Error getting AI response. Please try again.")
        (lit "If symptoms persist, please consult a healthcare provider.") in
    let panel :=
      AdvicePanel (score >? 5) symptoms kws score verdict fallback in
    let row :=
      mk_row student_id (now w) symptoms kws score verdict fallback in
    let r := report_flow lower_fn isdigit_fn renders accepts w student_id in
    generate w symptoms kws = Raised e ->
    (renders (AiError e) && renders panel && accepts row = true ->
     status r = Finished /\ inserted (steps r) = [row])
    /\ (renders (AiError e) && renders panel && accepts row = false ->
        status r = Raises /\ inserted (steps r) = []).
Proof.
  intros lower_fn isdigit_fn renders accepts w student_id db bad symptoms
    rest e Hfile Hans Hbad Hok kws score verdict fallback panel row r Hgen.
  assert (Hr : status r =
               status (report_flow_loop lower_fn isdigit_fn renders accepts
                         w student_id db (symptoms :: rest))
               /\ inserted (steps r) =
                  inserted
                    (steps (report_flow_loop lower_fn isdigit_fn renders
                              accepts w student_id db (symptoms :: rest)))).
  { subst r. unfold report_flow. rewrite Hfile.
    cbn [load_symptoms_db_or_raise steps status]. rewrite Hans.
    rewrite inserted_app. simpl inserted at 1. simpl app.
    exact (report_flow_loop_skip lower_fn isdigit_fn renders accepts w
             student_id db bad (symptoms :: rest) Hbad). }
  destruct Hr as [-> ->].
  cbn [report_flow_loop]. rewrite Hok. cbn [negb].
  fold kws score verdict.
  unfold get_gemini_response_or_raise, get_gemini_response.
  rewrite Hgen. unfold display_response_or_raise.
  change (mk_advice REMEDY_ERROR DOCTOR_ERROR) with fallback.
  destruct (renders (AiError e)); cbn [andb].
  2: { split; [discriminate | intros _; split; reflexivity]. }
  cbv beta iota.
  change (AdvicePanel (score >? 5) symptoms kws score verdict fallback)
    with panel.
  change (mk_row student_id (now w) symptoms kws score verdict fallback)
    with row.
  destruct (renders panel); cbn [andb].
  2: { split; [discriminate | intros _; split; reflexivity]. }
  cbv beta iota.
  destruct (accepts row).
  - split; [intros _ | discriminate]. split; reflexivity.
  - split; [discriminate | intros _]. split; reflexivity.
Qed.

(** The answer [my arm [/b] hurts] on a console that does not render a
    panel with [[/b]] in its symptoms, the generator failing. *)
Lemma advice_failure_outcomes_witness :
  let r :=
    report_flow lower isdigit (renders_unless_symptoms (lit "[/b]"))
      (fun _ => true)
      (sample_world (Loaded sample_db) [lit "my arm [/b] hurts"]
         (Raised (lit "timeout")))
      (lit "S1") in
  validate_symptoms_with isdigit (lit "my arm [/b] hurts") = true
  /\ status r = Raises
  /\ inserted (steps r) = [].
Proof.
  split; [reflexivity |].
  apply (proj2
    (advice_failure_outcomes lower isdigit
       (renders_unless_symptoms (lit "[/b]")) (fun _ => true)
       (sample_world (Loaded sample_db) [lit "my arm [/b] hurts"]
          (Raised (lit "timeout")))
       (lit "S1") sample_db [] (lit "my arm [/b] hurts") [] (lit "timeout")
       eq_refl eq_refl (Forall_nil _) eq_refl eq_refl)).
  reflexivity.
Defined.

(** C9.  With no negative weight in the table, the score is not negative. *)
Theorem score_nonnegative :
  forall symptoms db,
    Forall (fun item => 0 <= weight (snd item)) db ->
    0 <= snd (analyze_symptoms symptoms db).
Proof.
  intros symptoms db Hw.
  rewrite analyze_pairs. simpl.
  apply sum_Z_nonneg, Forall_forall.
  intros z Hz. apply in_map_iff in Hz as [[[c d] k] [<- Hin]].
  apply in_matching_pairs in Hin as [Hdb _].
  rewrite Forall_forall in Hw. exact (Hw (c, d) Hdb).
Qed.

(** The score of [fever and cough] on a table of weights 2 and 1. *)
Lemma score_nonnegative_witness :
  0 <= snd (analyze_symptoms (lit "fever and cough")
              [ (lit "fever", mk_entry [lit "fever"; lit "chills"] 2);
                (lit "cold", mk_entry [lit "cough"] 1) ]).
Proof.
  apply score_nonnegative.
  repeat constructor; simpl; lia.
Defined.

(** C10.  The empty keyword occurs in every text, so a condition that holds
    it matches on every input, the empty one included: where the table is
    walked past it, the empty keyword is appended and the weight of its
    condition added, whatever comes before and after. *)
Theorem empty_keyword_always_matches :
  forall symptoms pre condition (ks1 ks2 : list str) w post,
    contains [] (lower symptoms) = true
    /\ analyze_symptoms symptoms
         (pre ++ (condition, mk_entry (ks1 ++ [] :: ks2) w) :: post) =
       (fst (analyze_symptoms symptoms (pre ++ [(condition, mk_entry ks1 w)]))
        ++ [] :: fst (analyze_symptoms symptoms
                        ((condition, mk_entry ks2 w) :: post)),
        snd (analyze_symptoms symptoms (pre ++ [(condition, mk_entry ks1 w)]))
        + w
        + snd (analyze_symptoms symptoms
                 ((condition, mk_entry ks2 w) :: post))).
Proof.
  intros symptoms pre condition ks1 ks2 w post.
  split; [apply contains_empty |].
  change ((condition, mk_entry (ks1 ++ [] :: ks2) w) :: post)
    with ([(condition, mk_entry (ks1 ++ [] :: ks2) w)] ++ post).
  change ((condition, mk_entry ks2 w) :: post)
    with ([(condition, mk_entry ks2 w)] ++ post).
  rewrite !analyze_app, !analyze_single. simpl.
  rewrite filter_app. simpl. rewrite contains_empty.
  rewrite length_app. simpl.
  rewrite <- !app_assoc. simpl. f_equal.
  rewrite Nat2Z.inj_add, Nat2Z.inj_succ, Z.mul_add_distr_l, Z.mul_succ_r.
  unfold str. lia.
Qed.

(** ** Beyond the claims *)

(** X1.  The score does not depend on the order of the conditions in the
    table: two tables with the same items in another order give the same
    score. *)
Theorem score_independent_of_table_order :
  forall symptoms db1 db2,
    Permutation db1 db2 ->
    snd (analyze_symptoms symptoms db1) = snd (analyze_symptoms symptoms db2).
Proof.
  intros symptoms db1 db2 H.
  induction H as [| x l l' _ IH | x y l | l l' l'' _ IH1 _ IH2].
  - reflexivity.
  - now rewrite (analyze_score_cons symptoms x l),
      (analyze_score_cons symptoms x l'), IH.
  - rewrite (analyze_score_cons symptoms y (x :: l)),
      (analyze_score_cons symptoms x l),
      (analyze_score_cons symptoms x (y :: l)),
      (analyze_score_cons symptoms y l).
    lia.
  - now rewrite IH1.
Qed.

(** The two conditions of the sample table, swapped. *)
Lemma score_independent_of_table_order_witness :
  snd (analyze_symptoms (lit "I have a fever and a cough")
         [ (lit "fever", mk_entry [lit "fever"; lit "chills"] 2);
           (lit "cold", mk_entry [lit "cough"] 1) ])
  = snd (analyze_symptoms (lit "I have a fever and a cough")
           [ (lit "cold", mk_entry [lit "cough"] 1);
             (lit "fever", mk_entry [lit "fever"; lit "chills"] 2) ]).
Proof.
  apply score_independent_of_table_order.
  apply perm_swap.
Defined.

(** *** The sections of a generated text *)

Lemma split_from_skip sep u cur rest :
  split_from sep (List.length u) cur (u ++ rest) = split_from sep 0 cur rest.
Proof.
  induction u as [|x u IH]; [reflexivity | exact IH].
Qed.

Lemma split_from_sep h sep' cur rest :
  split_from (h :: sep') 0 cur ((h :: sep') ++ rest) =
  cur :: split_from (h :: sep') 0 [] rest.
Proof.
  change (split_from (h :: sep') 0 cur ((h :: sep') ++ rest))
    with (if startswith (h :: sep') ((h :: sep') ++ rest)
          then cur :: split_from (h :: sep') (List.length sep') []
                        (sep' ++ rest)
          else split_from (h :: sep') 0 (cur ++ [h]) (sep' ++ rest)).
  assert (E : startswith (h :: sep') ((h :: sep') ++ rest) = true)
    by (apply startswith_spec; now exists rest).
  now rewrite E, split_from_skip.
Qed.

Lemma split_from_plain h sep' a cur rest :
  ~ In h a ->
  split_from (h :: sep') 0 cur (a ++ rest) =
  split_from (h :: sep') 0 (cur ++ a) rest.
Proof.
  revert cur. induction a as [|x a IH]; intros cur Hin.
  - simpl. now rewrite app_nil_r.
  - change (split_from (h :: sep') 0 cur ((x :: a) ++ rest))
      with (if (h =? x)%N && startswith sep' (a ++ rest)
            then cur :: split_from (h :: sep') (List.length sep') []
                          (a ++ rest)
            else split_from (h :: sep') 0 (cur ++ [x]) (a ++ rest)).
    assert (E : (h =? x)%N = false).
    { apply N.eqb_neq. intros ->. apply Hin. now left. }
    rewrite E. simpl. rewrite IH.
    + now rewrite <- app_assoc.
    + intros H. apply Hin. now right.
Qed.

(** Two pieces around the one heading of a text. *)
Lemma split_one_heading h sep' a b :
  ~ In h a -> ~ In h b ->
  split (h :: sep') (a ++ (h :: sep') ++ b) = [a; b].
Proof.
  intros Ha Hb. unfold split.
  rewrite (split_from_plain h sep' a [] _ Ha). simpl app at 1.
  rewrite split_from_sep.
  rewrite <- (app_nil_r b) at 1.
  now rewrite (split_from_plain h sep' b [] [] Hb).
Qed.

Lemma not_in_app (x : char) (a b : str) :
  ~ In x a -> ~ In x b -> ~ In x (a ++ b).
Proof. intros Ha Hb H. apply in_app_or in H. tauto. Qed.

Lemma pill_not_in_doctor_label : ~ In 0x1f48a%N DOCTOR_LABEL.
Proof.
  intros H. repeat (destruct H as [H | H]; [discriminate H |]). exact H.
Qed.

Lemma man_not_in_remedy_label : ~ In 0x1f468%N REMEDY_LABEL.
Proof.
  intros H. repeat (destruct H as [H | H]; [discriminate H |]). exact H.
Qed.

(** X2.  A text made of a remedy heading, the remedy, a doctor heading and the
    doctor advice, in that order and with section texts that hold neither
    heading symbol, is read back exactly: each field is its section with the
    white space at both ends removed. *)
Theorem advice_sections_read_back :
  forall generate symptoms kws pre r d,
    generate symptoms kws =
      Text (pre ++ REMEDY_LABEL ++ r ++ DOCTOR_LABEL ++ d) ->
    heading_free pre -> heading_free r -> heading_free d ->
    get_gemini_response generate symptoms kws = mk_advice (strip r) (strip d).
Proof.
  intros generate symptoms kws pre r d Hgen [Hp1 Hp2] [Hr1 Hr2] [Hd1 Hd2].
  unfold get_gemini_response. rewrite Hgen.
  unfold parse_remedy, parse_doctor_advice.
  assert (E1 : split REMEDY_LABEL
                 (pre ++ REMEDY_LABEL ++ r ++ DOCTOR_LABEL ++ d)
               = [pre; r ++ DOCTOR_LABEL ++ d]).
  { apply split_one_heading; [exact Hp1 |].
    apply not_in_app; [exact Hr1 |].
    apply not_in_app; [exact pill_not_in_doctor_label | exact Hd1]. }
  assert (E2 : split DOCTOR_LABEL (r ++ DOCTOR_LABEL ++ d) = [r; d])
    by (apply split_one_heading; assumption).
  assert (E3 : split DOCTOR_LABEL
                 (pre ++ REMEDY_LABEL ++ r ++ DOCTOR_LABEL ++ d)
               = [pre ++ REMEDY_LABEL ++ r; d]).
  { rewrite !app_assoc. rewrite <- (app_assoc _ DOCTOR_LABEL d).
    apply split_one_heading; [| exact Hd2].
    apply not_in_app; [| exact Hr2].
    apply not_in_app; [exact Hp2 | exact man_not_in_remedy_label]. }
  rewrite E1, E3. cbn [nth_error]. rewrite E2. reflexivity.
Qed.

(** A well-formed answer of the generator. *)
Lemma advice_sections_read_back_witness :
  get_gemini_response
    (fun _ _ =>
       Text (lit "Here you go: " ++ REMEDY_LABEL ++ lit " Rest and drink water  "
             ++ DOCTOR_LABEL ++ lit " If the fever lasts three days "))
    (lit "fever") [lit "fever"]
  = mk_advice (strip (lit " Rest and drink water  "))
      (strip (lit " If the fever lasts three days ")).
Proof.
  apply (advice_sections_read_back _ (lit "fever") [lit "fever"]
           (lit "Here you go: ")).
  - reflexivity.
  - split; intros H;
      repeat (destruct H as [H | H]; [discriminate H |]); exact H.
  - split; intros H;
      repeat (destruct H as [H | H]; [discriminate H |]); exact H.
  - split; intros H;
      repeat (destruct H as [H | H]; [discriminate H |]); exact H.
Defined.

(** X3.  With the two headings in the other order, doctor advice first, the
    remedy is still its own section, and the doctor advice field holds all
    that follows the doctor heading: its section, the remedy heading and the
    remedy. *)
Theorem advice_sections_swapped :
  forall generate symptoms kws pre r d,
    generate symptoms kws =
      Text (pre ++ DOCTOR_LABEL ++ d ++ REMEDY_LABEL ++ r) ->
    heading_free pre -> heading_free r -> heading_free d ->
    get_gemini_response generate symptoms kws =
    mk_advice (strip r) (strip (d ++ REMEDY_LABEL ++ r)).
Proof.
  intros generate symptoms kws pre r d Hgen [Hp1 Hp2] [Hr1 Hr2] [Hd1 Hd2].
  unfold get_gemini_response. rewrite Hgen.
  unfold parse_remedy, parse_doctor_advice.
  assert (E1 : split REMEDY_LABEL
                 (pre ++ DOCTOR_LABEL ++ d ++ REMEDY_LABEL ++ r)
               = [pre ++ DOCTOR_LABEL ++ d; r]).
  { rewrite !app_assoc. rewrite <- (app_assoc _ REMEDY_LABEL r).
    apply split_one_heading; [| exact Hr1].
    apply not_in_app; [| exact Hd1].
    apply not_in_app; [exact Hp1 | exact pill_not_in_doctor_label]. }
  assert (E2 : split DOCTOR_LABEL r = [r]).
  { unfold split. rewrite <- (app_nil_r r) at 1.
    unfold DOCTOR_LABEL. simpl app at 1.
    now rewrite split_from_plain. }
  assert (E3 : split DOCTOR_LABEL
                 (pre ++ DOCTOR_LABEL ++ d ++ REMEDY_LABEL ++ r)
               = [pre; d ++ REMEDY_LABEL ++ r]).
  { apply split_one_heading; [exact Hp2 |].
    apply not_in_app; [exact Hd2 |].
    apply not_in_app; [exact man_not_in_remedy_label | exact Hr2]. }
  rewrite E1, E3. cbn [nth_error]. rewrite E2. reflexivity.
Qed.

(** An answer with the doctor advice first. *)
Lemma advice_sections_swapped_witness :
  get_gemini_response
    (fun _ _ =>
       Text (DOCTOR_LABEL ++ lit " If it lasts " ++ REMEDY_LABEL
             ++ lit " Rest"))
    (lit "fever") [lit "fever"]
  = mk_advice (strip (lit " Rest"))
      (strip (lit " If it lasts " ++ REMEDY_LABEL ++ lit " Rest")).
Proof.
  apply (advice_sections_swapped _ (lit "fever") [lit "fever"] []).
  - reflexivity.
  - split; intros H; exact H.
  - split; intros H;
      repeat (destruct H as [H | H]; [discriminate H |]); exact H.
  - split; intros H;
      repeat (destruct H as [H | H]; [discriminate H |]); exact H.
Defined.

(** *** What a run stores and shows *)

Lemma report_loop_inserted w student_id db typed :
  inserted (trace (report_loop w student_id db typed)) = []
  \/ exists symptoms,
       validate_symptoms symptoms = true
       /\ inserted (trace (report_loop w student_id db typed)) =
          [row_of w student_id db symptoms].
Proof.
  induction typed as [|symptoms rest IH].
  - now left.
  - destruct (validate_symptoms symptoms) eqn:E.
    + right. exists symptoms. split; [exact E |].
      rewrite (report_loop_accepted w student_id db symptoms rest E).
      simpl. rewrite !inserted_app, !inserted_say. reflexivity.
    + rewrite (report_loop_rejected w student_id db symptoms rest E).
      simpl. rewrite inserted_app, inserted_say. exact IH.
Qed.



(** X5.  The urgent panel and the verdict agree: whenever
    [display_response] shows its panel for the verdict that [get_verdict]
    gave the score (the console rendering it), the panel is the urgent one
    with the call to seek attention exactly when the verdict is Urgent
    Care, and the plain one otherwise. *)
Theorem urgent_panel_iff_urgent_verdict :
  forall renders symptoms kws score response shown,
    display_response_or_raise renders symptoms kws score (get_verdict score)
      response = Some shown ->
    (get_verdict score = URGENT_CARE <->
     shown =
     [AdvicePanel true symptoms kws score (get_verdict score) response;
      SeekAttention])
    /\ (get_verdict score <> URGENT_CARE <->
        shown =
        [AdvicePanel false symptoms kws score (get_verdict score) response;
         FollowRemedy]).
Proof.
  intros renders symptoms kws score response shown.
  unfold display_response_or_raise, get_verdict.
  destruct (renders _); [| discriminate].
  intros H. injection H as <-.
  destruct (Z.ltb_spec score 3), (Z.leb_spec 3 score), (Z.leb_spec score 5),
    (Z.gtb_spec score 5); simpl; try lia;
    (split; split; intros Hv; try reflexivity; try discriminate Hv;
     try (exfalso; apply Hv; reflexivity);
     try (intros Hne; discriminate Hne)).
Qed.

(** A score of 6 on a console that renders every line: the panel shown is
    the urgent one, and so the verdict is Urgent Care. *)
Lemma urgent_panel_iff_urgent_verdict_witness :
  display_response_or_raise (fun _ => true) (lit "chest pain")
    [lit "chest pain"] 6 (get_verdict 6) (mk_advice REMEDY_ERROR DOCTOR_ERROR)
  = Some
      [AdvicePanel true (lit "chest pain") [lit "chest pain"] 6
         (get_verdict 6) (mk_advice REMEDY_ERROR DOCTOR_ERROR);
       SeekAttention]
  /\ get_verdict 6 = URGENT_CARE.
Proof.
  split; [reflexivity |].
  apply (proj1
    (urgent_panel_iff_urgent_verdict (fun _ => true) (lit "chest pain")
       [lit "chest pain"] 6 (mk_advice REMEDY_ERROR DOCTOR_ERROR) _ eq_refl)).
  reflexivity.
Defined.

(** X6.  The result depends on the input through its lower-case form only,
    whatever the lower-casing of the platform is: two inputs with the same
    lower-case form get the same keywords and the same score; and where
    lower-casing twice is lower-casing once, as in Python, so do an input
    and its own lower-case form. *)
Theorem input_case_does_not_matter :
  forall (lower_fn : str -> str) symptoms1 symptoms2 db,
    lower_fn symptoms1 = lower_fn symptoms2 ->
    analyze_symptoms_with lower_fn symptoms1 db =
    analyze_symptoms_with lower_fn symptoms2 db
    /\ ((forall s, lower_fn (lower_fn s) = lower_fn s) ->
        analyze_symptoms_with lower_fn (lower_fn symptoms1) db =
        analyze_symptoms_with lower_fn symptoms2 db).
Proof.
  intros lower_fn symptoms1 symptoms2 db H.
  unfold analyze_symptoms_with. simpl. split.
  - now rewrite H.
  - intros Hidem. now rewrite Hidem, H.
Qed.

(** [I HAVE A FEVER], [i have a Fever] and the lower-case form of the
    first, lower-cased by [lower]. *)
Lemma input_case_does_not_matter_witness :
  analyze_symptoms (lit "I HAVE A FEVER") sample_db =
  analyze_symptoms (lit "i have a Fever") sample_db
  /\ analyze_symptoms (lower (lit "I HAVE A FEVER")) sample_db =
     analyze_symptoms (lit "i have a Fever") sample_db.
Proof.
  pose proof (input_case_does_not_matter lower (lit "I HAVE A FEVER")
                (lit "i have a Fever") sample_db eq_refl) as [H1 H2].
  split; [exact H1 | exact (H2 lower_idem)].
Defined.

(** *** The history and the profile tables *)

Lemma str_eqb_spec a b : str_eqb a b = true <-> a = b.
Proof.
  revert b. induction a as [|x a IH]; intros [|y b]; simpl;
    try (split; [discriminate | intros H; discriminate H]);
    [split; reflexivity |].
  rewrite andb_true_iff, N.eqb_eq, IH. split.
  - now intros [-> ->].
  - intros H. injection H as -> ->. auto.
Qed.

Lemma str_eqb_refl a : str_eqb a a = true.
Proof. now apply str_eqb_spec. Qed.

Lemma or_empty_id x : or_empty x = x.
Proof. now destruct x. Qed.

Lemma verdict_emoji_of_get_verdict score :
  verdict_emoji (get_verdict score) = [0x1f534%N].
Proof.
  unfold get_verdict.
  destruct (score <? 3); [reflexivity |].
  destruct ((3 <=? score) && (score <=? 5)); reflexivity.
Qed.

(** X7.  [view_history] compares the stored verdict with the bare names
    [Home Care] and [Monitor], and [get_verdict] never returns these: every
    row that [report_symptoms] stored is shown with the red circle, whatever
    its band, followed by the stored verdict with its own circle. *)
Theorem history_shows_red_circle_for_stored_rows :
  forall w student_id row,
    In row (inserted (trace (report_symptoms w student_id))) ->
    history_line (log_of_row row) =
    (row_timestamp row, row_symptoms row, str_of_int (row_score row),
     0x1f534%N :: lit " " ++ get_verdict (row_score row))
    /\ verdict_emoji (lit "Home Care") = [0x1f7e2%N]
    /\ verdict_emoji (lit "Monitor") = [0x1f7e1%N].
Proof.
  intros w student_id row Hin.
  split; [| split; reflexivity].
  unfold report_symptoms in Hin. simpl in Hin.
  rewrite inserted_app, inserted_say in Hin. simpl in Hin.
  destruct (report_loop_inserted w student_id (load_symptoms_db (file w))
              (answers w)) as [E | [symptoms [_ E]]];
    rewrite E in Hin; [destruct Hin |].
  destruct Hin as [<- | []].
  unfold history_line, log_of_row, row_of. simpl.
  now rewrite verdict_emoji_of_get_verdict.
Qed.

(** The row of the answer [chills], a Home Care row. *)
Lemma history_shows_red_circle_for_stored_rows_witness :
  history_line
    (lit "2024-01-15 09:30:00", lit "chills", 2, HOME_CARE)
  = (lit "2024-01-15 09:30:00", lit "chills", lit "2",
     [0x1f534%N; 32%N; 0x1f7e2%N] ++ lit " Home Care").
Proof.
  exact (proj1
    (history_shows_red_circle_for_stored_rows
       (sample_world (Loaded sample_db) [lit "chills"]
          (Raised (lit "timeout")))
       (lit "S1")
       (mk_row (lit "S1") (lit "2024-01-15 09:30:00") (lit "chills")
          [lit "chills"] 2 HOME_CARE (mk_advice REMEDY_ERROR DOCTOR_ERROR))
       (or_introl eq_refl))).
Defined.

(** X8.  The status column of the medical history reads the end date where
    it means the ongoing flag and the start date where it means the end
    date: a condition added as ongoing is never shown as Ongoing, it is shown
    as ended on its start date (Unknown with no start date); a condition
    added as ended is shown as Ongoing once it has an end date; and the
    Start Date column holds the description. *)
Theorem medical_history_status_of_added_condition :
  forall id student_id condition description start_date is_ongoing
         end_answer timestamp,
    let entry := add_medical_condition id student_id condition description
                   start_date is_ongoing end_answer timestamp in
    (medical_status entry = ONGOING <->
     is_ongoing = false /\ end_answer <> [])
    /\ medical_status
         (add_medical_condition id student_id condition description
            start_date true end_answer timestamp) =
       match start_date with
       | [] => UNKNOWN
       | _ :: _ => ENDED ++ start_date
       end
    /\ medical_line entry =
       (condition, description, description, medical_status entry).
Proof.
  intros id student_id condition description start_date is_ongoing
    end_answer timestamp. simpl.
  split; [| split].
  - unfold medical_status, add_medical_condition. simpl.
    destruct is_ongoing; simpl.
    + split; [| intros [H _]; discriminate H].
      destruct start_date; intros H; discriminate H.
    + destruct end_answer as [|c e]; simpl.
      * split; [| intros [_ H]; now contradiction H].
        destruct start_date; intros H; discriminate H.
      * split; [intros _; split; [reflexivity | discriminate] | reflexivity].
  - unfold medical_status, add_medical_condition. simpl.
    now destruct start_date.
  - unfold medical_line. simpl. now rewrite or_empty_id.
Qed.

(** X9.  The Severity column of the allergy table shows the name again: the
    severity that was chosen changes nothing of the row shown, and the
    circle is red unless the allergy is itself named [Mild] or
    [Moderate]. *)
Theorem allergy_row_ignores_severity :
  forall id student_id allergy_type name severity1 severity2 notes timestamp,
    allergy_line
      (add_allergy id student_id allergy_type name severity1 notes timestamp)
    = allergy_line
        (add_allergy id student_id allergy_type name severity2 notes
           timestamp)
    /\ allergy_line
         (add_allergy id student_id allergy_type name severity1 notes
            timestamp)
       = (allergy_type, name,
          (if str_eqb name (lit "Mild") then [0x1f7e2%N]
           else if str_eqb name (lit "Moderate") then [0x1f7e1%N]
           else [0x1f534%N]) ++ lit " " ++ name,
          notes).
Proof.
  intros. split; [reflexivity |].
  unfold allergy_line, severity_emoji. simpl. now rewrite or_empty_id.
Qed.

(** X10.  An emergency contact is shown as it was entered: name,
    relationship, phone and email in their columns, and the star exactly
    for a contact entered as primary. *)
Theorem contact_row_shows_what_was_entered :
  forall id student_id name relationship phone email is_primary timestamp,
    contact_line
      (add_contact id student_id name relationship phone email is_primary
         timestamp)
    = (name, relationship, phone, email,
       if is_primary then 0x2b50%N :: lit " Yes" else lit "No").
Proof.
  intros. unfold contact_line. simpl. rewrite or_empty_id.
  now destruct is_primary.
Qed.

(** *** The timeline *)

Lemma fold_left_max_ge cs c :
  c <= fold_left Z.max cs c
  /\ forall x, In x cs -> x <= fold_left Z.max cs c.
Proof.
  revert c. induction cs as [|y cs IH]; intros c; simpl.
  - split; [lia | intros x []].
  - destruct (IH (Z.max c y)) as [H1 H2]. split; [lia |].
    intros x [<- | Hx]; [lia | now apply H2].
Qed.

Lemma fold_left_max_in cs c : In (fold_left Z.max cs c) (c :: cs).
Proof.
  revert c. induction cs as [|y cs IH]; intros c; simpl.
  - now left.
  - destruct (IH (Z.max c y)) as [H | H].
    + rewrite <- H.
      destruct (Z.max_spec c y) as [[_ E] | [_ E]]; rewrite E; auto.
    + right. now right.
Qed.

Lemma max_count_in dates data :
  dates <> [] ->
  exists date, In date dates /\ max_count dates data = count_on data date.
Proof.
  intros Hne. unfold max_count.
  destruct dates as [|d0 dates]; [contradiction |]. simpl map.
  pose proof (fold_left_max_in (map (count_on data) dates)
                (count_on data d0)) as [H | H].
  - exists d0. split; [now left | now rewrite <- H].
  - apply in_map_iff in H as [d [E Hd]].
    exists d. split; [now right | now rewrite E].
Qed.

Lemma max_count_ge dates data date :
  In date dates -> count_on data date <= max_count dates data.
Proof.
  intros Hin. unfold max_count.
  destruct dates as [|d0 dates]; [destruct Hin |]. simpl map.
  destruct (fold_left_max_ge (map (count_on data) dates)
              (count_on data d0)) as [H1 H2].
  destruct Hin as [<- | Hin]; [exact H1 |].
  apply H2. now apply in_map.
Qed.

Lemma count_on_app data row date :
  count_on (data ++ [row]) date =
  if str_eqb (fst row) date then snd row else count_on data date.
Proof. unfold count_on. now rewrite fold_left_app. Qed.

Lemma count_on_nonneg data date :
  Forall (fun row => 0 < snd row) data -> 0 <= count_on data date.
Proof.
  induction data as [|row data IH] using rev_ind; intros H.
  - reflexivity.
  - apply Forall_app in H as [H1 H2]. rewrite count_on_app.
    destruct (str_eqb (fst row) date).
    + inversion H2; subst. lia.
    + now apply IH.
Qed.

Lemma count_on_pos data date c :
  Forall (fun row => 0 < snd row) data ->
  In (date, c) data -> 0 < count_on data date.
Proof.
  induction data as [|row data IH] using rev_ind; intros H Hin.
  - destruct Hin.
  - apply Forall_app in H as [H1 H2]. rewrite count_on_app.
    destruct (str_eqb (fst row) date) eqn:E.
    + now inversion H2; subst.
    + apply in_app_or in Hin as [Hin | [-> | []]]; [now apply IH |].
      simpl in E. now rewrite str_eqb_refl in E.
Qed.

(** X11.  With no session on any of the dates of the window, and so for a
    student with no session in the last week, [show_symptom_timeline]
    divides by a [max_count] of 0: it raises [ZeroDivisionError] and shows
    no table.  The fall-back [else 1] of [max_count] is never taken, the
    dictionary of the dates is not empty. *)
Theorem timeline_without_sessions_raises :
  forall dates data,
    dates <> [] ->
    (forall date, In date dates -> count_on data date = 0) ->
    max_count dates data = 0
    /\ show_symptom_timeline dates data = ZeroDivisionError.
Proof.
  intros dates data Hne Hzero.
  assert (E : max_count dates data = 0).
  { destruct (max_count_in dates data Hne) as [date [Hin ->]].
    now apply Hzero. }
  split; [exact E |].
  unfold show_symptom_timeline. now rewrite E.
Qed.

(** Eight dates and a query that returned no row. *)
Lemma timeline_without_sessions_raises_witness :
  show_symptom_timeline
    [ lit "2024-01-08"; lit "2024-01-09"; lit "2024-01-10"; lit "2024-01-11";
      lit "2024-01-12"; lit "2024-01-13"; lit "2024-01-14"; lit "2024-01-15" ]
    []
  = ZeroDivisionError.
Proof.
  apply timeline_without_sessions_raises.
  - discriminate.
  - intros date _. reflexivity.
Defined.

(** X12.  With a session on one of the dates, the counts of the query being
    positive, the timeline is shown, one line per date with the day, the
    count and the bar of the date; no bar is longer than 20 blocks; every
    date with the highest count has a bar of exactly 20 blocks, and there
    is such a date. *)
Theorem timeline_bars_are_scaled_to_twenty :
  forall dates data,
    Forall (fun row => 0 < snd row) data ->
    (exists date c, In date dates /\ In (date, c) data) ->
    show_symptom_timeline dates data =
    TimelinePanel
      (map (fun date =>
              (day_month date, str_of_int (count_on data date),
               bar (count_on data date) (max_count dates data)))
         dates)
    /\ (forall date,
          In date dates ->
          (List.length (bar (count_on data date) (max_count dates data))
           <= 20)%nat)
    /\ (forall date,
          In date dates ->
          count_on data date = max_count dates data ->
          List.length (bar (count_on data date) (max_count dates data))
          = 20%nat)
    /\ (exists date,
          In date dates /\ count_on data date = max_count dates data).
Proof.
  intros dates data Hpos [date0 [c0 [Hd0 Hc0]]].
  assert (Hne : dates <> []) by (intros ->; destruct Hd0).
  assert (Hmax : 0 < max_count dates data).
  { pose proof (count_on_pos data date0 c0 Hpos Hc0).
    pose proof (max_count_ge dates data date0 Hd0). lia. }
  split; [| split; [| split]].
  - unfold show_symptom_timeline.
    destruct (Z.eqb_spec (max_count dates data) 0) as [E | _]; [lia |].
    reflexivity.
  - intros date Hdate. unfold bar. rewrite repeat_length.
    pose proof (count_on_nonneg data date Hpos) as H0.
    pose proof (max_count_ge dates data date Hdate) as H1.
    rewrite Z.quot_div_nonneg by lia.
    assert (count_on data date * 20 / max_count dates data <= 20)
      by (apply Z.div_le_upper_bound; nia).
    assert (0 <= count_on data date * 20 / max_count dates data)
      by (apply Z.div_pos; lia).
    lia.
  - intros date _ E. unfold bar. rewrite repeat_length, E.
    rewrite Z.mul_comm, Z.quot_mul by lia. reflexivity.
  - destruct (max_count_in dates data Hne) as [date [Hdate E]].
    exists date. split; [exact Hdate | now rewrite E].
Qed.

(** One session on the 13th and two on the 15th: the 15th has the highest
    count and a bar of 20 blocks, the 13th a bar of at most 20. *)
Lemma timeline_bars_are_scaled_to_twenty_witness :
  let dates := [lit "2024-01-13"; lit "2024-01-14"; lit "2024-01-15"] in
  let data := [(lit "2024-01-13", 1); (lit "2024-01-15", 2)] in
  List.length
    (bar (count_on data (lit "2024-01-15")) (max_count dates data)) = 20%nat
  /\ (List.length
        (bar (count_on data (lit "2024-01-13")) (max_count dates data))
      <= 20)%nat.
Proof.
  assert (Hpos : Forall (fun row : str * Z => 0 < snd row)
                   [(lit "2024-01-13", 1); (lit "2024-01-15", 2)])
    by (repeat constructor).
  assert (Hin : exists date c,
             In date [lit "2024-01-13"; lit "2024-01-14"; lit "2024-01-15"]
             /\ In (date, c) [(lit "2024-01-13", 1); (lit "2024-01-15", 2)])
    by (exists (lit "2024-01-13"), 1; split; left; reflexivity).
  pose proof (timeline_bars_are_scaled_to_twenty
                [lit "2024-01-13"; lit "2024-01-14"; lit "2024-01-15"]
                [(lit "2024-01-13", 1); (lit "2024-01-15", 2)] Hpos Hin)
    as [_ [Hle [Htop _]]].
  split.
  - apply Htop; [right; right; left; reflexivity | reflexivity].
  - apply Hle. left. reflexivity.
Defined.

(** *** The session clock *)

(** X13.  The minutes and seconds [show_session_stats] prints make up the
    duration again, and the seconds lie from 0 to 59, also for a duration
    below zero (a clock set back). *)
Theorem session_stats_recompose :
  forall session_duration,
    let '(minutes, seconds) := show_session_stats session_duration in
    minutes * 60 + seconds = session_duration /\ 0 <= seconds < 60.
Proof.
  intros d. unfold show_session_stats.
  pose proof (Z.div_mod d 60). pose proof (Z.mod_pos_bound d 60). lia.
Qed.

(** *** Personal advice *)

(** X14.  The season lookup of [get_personalized_advice] cannot miss: for
    every month, also one outside 1 to 12, the season is a key of
    [SEASONAL_ALERTS], and the advice ends with the season heading and the
    two alerts of the season.  The personal heading is printed exactly when
    the query returned a frequent symptom. *)
Theorem personalized_advice_always_finds_season :
  forall frequent_symptoms month,
    exists alert1 alert2,
      dict_get SEASONAL_ALERTS (season_of month) = Some [alert1; alert2]
      /\ get_personalized_advice frequent_symptoms month =
         Some
           (match frequent_symptoms with
            | [] => []
            | _ :: _ =>
                PersonalizedAdvice
                :: flat_map (fun row => symptom_advice (fst row))
                     frequent_symptoms
            end
            ++ [SeasonalHealthAlert; Bullet alert1; Bullet alert2]).
Proof.
  intros frequent_symptoms month.
  unfold get_personalized_advice, season_of.
  destruct ((3 <=? month) && (month <=? 6));
    [| destruct ((7 <=? month) && (month <=? 10))];
    eexists; eexists; split; reflexivity.
Qed.

Lemma symptom_advice_cases symptom :
  symptom_advice symptom =
  if contains_nocase (lit "fatigue") symptom
  then [ Bullet (lit "Consider iron-rich foods (spinach, lentils) - common in hostel diets");
         Bullet (lit "Maintain a regular sleep schedule (aim for 7-8 hours)") ]
  else if contains_nocase (lit "headache") symptom
  then [ Bullet (lit "Take regular screen breaks (20-20-20 rule)");
         Bullet (lit "Stay hydrated and maintain good posture") ]
  else [].
Proof. reflexivity. Qed.

(** X15.  The advice for a frequent symptom finds [fatigue] in any letter
    case and anywhere in the text, and looks for it first: a text with a
    piece whose lower-case form is [fatigue] gets the two lines on iron and
    sleep and no other line, whatever else it names, a headache included. *)
Theorem fatigue_advice_in_any_case :
  forall before piece after,
    lower piece = lit "fatigue" ->
    symptom_advice (before ++ piece ++ after) =
    [ Bullet (lit "Consider iron-rich foods (spinach, lentils) - common in hostel diets");
      Bullet (lit "Maintain a regular sleep schedule (aim for 7-8 hours)") ].
Proof.
  intros before piece after H.
  rewrite symptom_advice_cases.
  assert (E : contains_nocase (lit "fatigue") (before ++ piece ++ after)
              = true).
  { apply contains_nocase_spec. exists before, piece, after.
    split; [reflexivity | exact H]. }
  now rewrite E.
Qed.

(** The text [Headache and FATIGUE after class]. *)
Lemma fatigue_advice_in_any_case_witness :
  symptom_advice (lit "Headache and FATIGUE after class") =
  [ Bullet (lit "Consider iron-rich foods (spinach, lentils) - common in hostel diets");
    Bullet (lit "Maintain a regular sleep schedule (aim for 7-8 hours)") ].
Proof.
  apply (fatigue_advice_in_any_case (lit "Headache and ") (lit "FATIGUE")
           (lit " after class")).
  reflexivity.
Defined.

(** *** New profiles *)

Lemma registered_spec users student_id :
  registered users student_id = false ->
  ~ In student_id (map user_student_id users).
Proof.
  intros H Hin. apply in_map_iff in Hin as [u [E Hu]].
  assert (registered users student_id = true).
  { apply existsb_exists. exists u. split; [exact Hu |].
    now apply str_eqb_spec. }
  congruence.
Qed.

Lemma profile_form_created users to_int timestamp typed :
  forall st said said' student_id users',
    state_ok users st ->
    profile_form users to_int timestamp st said typed =
      Created said' student_id users' ->
    exists u,
      users' = users ++ [u]
      /\ user_student_id u = student_id
      /\ valid_user users u
      /\ user_created_at u = timestamp.
Proof.
  induction typed as [|a rest IH]; intros st said said' student_id users'
    Hok H; [discriminate H |].
  destruct st as [| full_name | full_name sid | full_name sid age
                  | full_name sid age gender];
    cbn [profile_form] in H; cbn [state_ok] in Hok.
  - destruct (blank a) eqn:Ea; apply IH in H; simpl; auto.
  - destruct (blank a) eqn:Ea; [apply IH in H; simpl; auto |].
    destruct (registered users a) eqn:Er; apply IH in H; simpl; auto.
  - destruct (to_int a) as [age |]; [| apply IH in H; simpl; auto].
    destruct ((age <? 0) || (age >? 120)) eqn:Eage;
      [apply IH in H; simpl; auto |].
    apply IH in H; [exact H |]. simpl.
    apply orb_false_iff in Eage as [E1 E2].
    apply Z.ltb_ge in E1. rewrite Z.gtb_ltb in E2. apply Z.ltb_ge in E2.
    tauto.
  - destruct (existsb (str_eqb a) GENDERS) eqn:Eg;
      apply IH in H; simpl; auto.
    destruct Hok as [H1 [H2 [H3 H4]]]. repeat split; try assumption; try lia.
    apply existsb_exists in Eg as [g [Hg Eg]].
    apply str_eqb_spec in Eg. now subst g.
  - destruct (blank a) eqn:Ea; [apply IH in H; simpl; auto |].
    injection H as _ <- <-.
    eexists. split; [reflexivity |]. split; [reflexivity |].
    destruct Hok as [H1 [H2 [H3 [H4 H5]]]].
    split; [| reflexivity].
    unfold valid_user. simpl. repeat split; try assumption; lia.
Qed.

(** X16.  [create_new_profile] adds a row to [users] only after every check
    passed: the one row it adds has a name, a student id and a room that are
    not blank, a student id that was not registered yet, an age from 0 to
    120 and one of the three genders, and its two time stamps are the same;
    student ids that were distinct before stay distinct. *)
Theorem created_profile_is_valid :
  forall users to_int timestamp typed said student_id users',
    create_new_profile users to_int timestamp typed =
      Created said student_id users' ->
    exists u,
      users' = users ++ [u]
      /\ user_student_id u = student_id
      /\ valid_user users u
      /\ (NoDup (map user_student_id users) ->
          NoDup (map user_student_id users')).
Proof.
  intros users to_int timestamp typed said student_id users' H.
  apply profile_form_created in H as [u [-> [Hid [Hvalid _]]]]; [| exact I].
  exists u. repeat split; try assumption; try apply Hvalid.
  intros Hnd. rewrite map_app. simpl.
  apply NoDup_app_remove_l with (l := []). simpl.
  apply (Permutation_NoDup (l := user_student_id u :: map user_student_id users)).
  - apply Permutation_cons_append.
  - constructor; [| exact Hnd].
    apply registered_spec. apply Hvalid.
Qed.

(** The answers [Asha Rao], [S1], [20], [Female], [B-12] on an empty
    table, with an [int] that reads [20]. *)
Lemma created_profile_is_valid_witness :
  exists u,
    [mk_user (lit "S1") (lit "Asha Rao") 20 (lit "Female") (lit "B-12")
       (lit "2024-01-15 09:30:00") (lit "2024-01-15 09:30:00")]
    = [] ++ [u]
    /\ user_student_id u = lit "S1"
    /\ valid_user [] u
    /\ (NoDup (map user_student_id []) ->
        NoDup
          (map user_student_id
             [mk_user (lit "S1") (lit "Asha Rao") 20 (lit "Female")
                (lit "B-12") (lit "2024-01-15 09:30:00")
                (lit "2024-01-15 09:30:00")])).
Proof.
  apply (created_profile_is_valid []
           (fun a => if str_eqb a (lit "20") then Some 20 else None)
           (lit "2024-01-15 09:30:00")
           [lit "Asha Rao"; lit "S1"; lit "20"; lit "Female"; lit "B-12"]
           [ProfileCreated] (lit "S1")).
  reflexivity.
Defined.

Lemma profile_form_gender users to_int timestamp full_name student_id age
    said wrong rest :
  Forall (fun a => existsb (str_eqb a) GENDERS = false) wrong ->
  profile_form users to_int timestamp (AskGender full_name student_id age)
    said (wrong ++ rest) =
  profile_form users to_int timestamp (AskGender full_name student_id age)
    said rest.
Proof.
  induction 1 as [|a wrong Ha _ IH]; [reflexivity |].
  simpl app. cbn [profile_form]. now rewrite Ha.
Qed.

(** X17.  Answers that pass every check create the profile at once: a name,
    a free student id, an age that [int] reads as a number from 0 to 120,
    a gender (answers that are not one of the three are asked again without
    starting the form over) and a room give the row of exactly these
    answers, stamped with the clock, and the student id is returned. *)
Theorem valid_answers_create_profile :
  forall users to_int timestamp full_name student_id age_text age wrong
         gender hostel_room rest,
    blank full_name = false ->
    blank student_id = false ->
    registered users student_id = false ->
    to_int age_text = Some age ->
    0 <= age <= 120 ->
    Forall (fun a => existsb (str_eqb a) GENDERS = false) wrong ->
    In gender GENDERS ->
    blank hostel_room = false ->
    create_new_profile users to_int timestamp
      (full_name :: student_id :: age_text
       :: wrong ++ gender :: hostel_room :: rest)
    = Created [ProfileCreated] student_id
        (users
         ++ [mk_user student_id full_name age gender hostel_room timestamp
               timestamp]).
Proof.
  intros users to_int timestamp full_name student_id age_text age wrong
    gender hostel_room rest Hname Hid Hreg Hint Hage Hwrong Hgender Hroom.
  unfold create_new_profile. cbn [profile_form].
  rewrite Hname, Hid, Hreg, Hint.
  assert (E : (age <? 0) || (age >? 120) = false).
  { apply orb_false_iff. split; [apply Z.ltb_ge; lia |].
    rewrite Z.gtb_ltb. apply Z.ltb_ge. lia. }
  rewrite E, profile_form_gender by exact Hwrong.
  cbn [profile_form].
  assert (Eg : existsb (str_eqb gender) GENDERS = true).
  { apply existsb_exists. exists gender. split; [exact Hgender |].
    apply str_eqb_refl. }
  now rewrite Eg, Hroom.
Qed.

(** The same answers with a wrong gender typed first. *)
Lemma valid_answers_create_profile_witness :
  create_new_profile []
    (fun a => if str_eqb a (lit "20") then Some 20 else None)
    (lit "2024-01-15 09:30:00")
    [lit "Asha Rao"; lit "S1"; lit "20"; lit "female"; lit "Female";
     lit "B-12"]
  = Created [ProfileCreated] (lit "S1")
      [mk_user (lit "S1") (lit "Asha Rao") 20 (lit "Female") (lit "B-12")
         (lit "2024-01-15 09:30:00") (lit "2024-01-15 09:30:00")].
Proof.
  apply (valid_answers_create_profile []
           (fun a => if str_eqb a (lit "20") then Some 20 else None)
           (lit "2024-01-15 09:30:00")
           (lit "Asha Rao") (lit "S1") (lit "20") 20 [lit "female"]
           (lit "Female") (lit "B-12") []).
  - reflexivity.
  - reflexivity.
  - reflexivity.
  - reflexivity.
  - lia.
  - repeat constructor.
  - right. left. reflexivity.
  - reflexivity.
Defined.

(** *** Deleting the last entry *)

Lemma filter_length_unique (table : sessions_table) id (p : Z * session_row -> bool) :
  NoDup (map fst table) ->
  (forall r, p r = false -> fst r = id) ->
  (List.length table <= S (List.length (filter p table)))%nat.
Proof.
  intros Hnd Hp. induction table as [|r table IH]; simpl; [lia |].
  inversion Hnd as [|x l Hnotin Hnd']; subst.
  destruct (p r) eqn:E; simpl.
  - specialize (IH Hnd'). lia.
  - assert (Hall : filter p table = table).
    { apply forallb_filter_id. apply forallb_forall. intros r' Hr'.
      destruct (p r') eqn:E'; [reflexivity |]. exfalso. apply Hnotin.
      rewrite (Hp r E), <- (Hp r' E'). now apply in_map. }
    rewrite Hall. lia.
Qed.

(** X18.  [delete_last_entry] keeps every row of the other students,
    whatever key the query returned; it deletes nothing when no row was
    found or the user did not confirm; and with keys that are unique it
    deletes at most one row, which is a row of the student with the key
    returned. *)
Theorem delete_last_entry_is_confined :
  forall table student_id last_id confirm,
    NoDup (map fst table) ->
    let table' := delete_last_entry table student_id last_id confirm in
    filter (fun r => negb (str_eqb (row_student_id (snd r)) student_id))
      table'
    = filter (fun r => negb (str_eqb (row_student_id (snd r)) student_id))
        table
    /\ (last_id = None \/ confirm = false -> table' = table)
    /\ (List.length table <= S (List.length table'))%nat
    /\ (forall r, In r table ->
          In r table'
          \/ (last_id = Some (fst r)
              /\ row_student_id (snd r) = student_id)).
Proof.
  intros table student_id last_id confirm Hnd. simpl.
  unfold delete_last_entry.
  destruct last_id as [id |]; [destruct confirm |];
    try (repeat split; auto; lia).
  split; [| split; [| split]].
  - induction table as [|r table IH]; [reflexivity |].
    inversion Hnd; subst. simpl.
    destruct (str_eqb (row_student_id (snd r)) student_id) eqn:E; simpl.
    + destruct (fst r =? id); simpl; [now apply IH |].
      rewrite E. simpl. now apply IH.
    + rewrite andb_false_r. simpl. rewrite E. simpl. f_equal. now apply IH.
  - intros [H | H]; discriminate H.
  - apply filter_length_unique with (id := id); [exact Hnd |].
    intros r H. apply negb_false_iff, andb_true_iff in H as [H _].
    now apply Z.eqb_eq.
  - intros r Hr.
    destruct ((fst r =? id)
              && str_eqb (row_student_id (snd r)) student_id) eqn:E.
    + right. apply andb_true_iff in E as [E1 E2].
      apply Z.eqb_eq in E1. apply str_eqb_spec in E2. now subst.
    + left. apply filter_In. split; [exact Hr |]. now rewrite E.
Qed.

(** Two students, one row each; the first deletes a row. *)
Lemma delete_last_entry_is_confined_witness :
  let r1 := mk_row (lit "S1") (lit "2024-01-15 09:30:00") (lit "chills")
              [lit "chills"] 2 HOME_CARE
              (mk_advice REMEDY_ERROR DOCTOR_ERROR) in
  let r2 := mk_row (lit "S2") (lit "2024-01-16 10:00:00") (lit "cough")
              [lit "cough"] 1 HOME_CARE
              (mk_advice REMEDY_ERROR DOCTOR_ERROR) in
  filter (fun r => negb (str_eqb (row_student_id (snd r)) (lit "S1")))
    (delete_last_entry [(1, r1); (2, r2)] (lit "S1") (Some 2) true)
  = [(2, r2)].
Proof.
  simpl.
  refine (eq_trans
    (proj1
       (delete_last_entry_is_confined
          [(1, mk_row (lit "S1") (lit "2024-01-15 09:30:00") (lit "chills")
                 [lit "chills"] 2 HOME_CARE
                 (mk_advice REMEDY_ERROR DOCTOR_ERROR));
           (2, mk_row (lit "S2") (lit "2024-01-16 10:00:00") (lit "cough")
                 [lit "cough"] 1 HOME_CARE
                 (mk_advice REMEDY_ERROR DOCTOR_ERROR))]
          (lit "S1") (Some 2) true _)) _).
  - repeat constructor; simpl; intuition discriminate.
  - reflexivity.
Defined.

(** *** Runs that raise *)

Lemma report_flow_loop_stores lower_fn isdigit_fn renders accepts w
    student_id db typed :
  let r :=
    report_flow_loop lower_fn isdigit_fn renders accepts w student_id db
      typed in
  (status r = Finished ->
   exists row, inserted (steps r) = [row] /\ accepts row = true)
  /\ (status r <> Finished -> inserted (steps r) = []).
Proof.
  induction typed as [|symptoms rest IH]; cbv zeta.
  - split; [discriminate | reflexivity].
  - destruct (validate_symptoms_with isdigit_fn symptoms) eqn:E.
    + destruct (report_flow_loop_accepted lower_fn isdigit_fn renders accepts
                  w student_id db symptoms rest E)
        as [said [stored [Hs [Hstored Hraises]]]].
      rewrite Hs, !inserted_app, inserted_say. cbn [inserted app].
      destruct Hstored as [-> | [Hfin [response [_ [_ [Hacc ->]]]]]].
      * split; [| reflexivity].
        intros Hfin. rewrite (Hraises eq_refl) in Hfin. discriminate Hfin.
      * split; [| intros Hne; contradiction].
        intros _. eexists. split; [reflexivity | exact Hacc].
    + rewrite (report_flow_loop_rejected lower_fn isdigit_fn renders accepts
                 w student_id db symptoms rest E).
      cbn [steps status].
      rewrite !inserted_app, inserted_say. exact IH.
Qed.

(** X19.  A generated text that lacks a heading is no failure of
    [get_gemini_response]: whatever the console renders, it returns, with
    [Unable to parse remedy from AI response] for a missing remedy heading,
    [If symptoms persist or worsen, please consult a healthcare provider]
    for a missing doctor heading, and both for a text with neither. *)
Theorem missing_heading_gives_fallback :
  forall renders generate symptoms kws text,
    generate symptoms kws = Text text ->
    exists response,
      get_gemini_response_or_raise renders generate symptoms kws
      = Some response
      /\ (contains REMEDY_LABEL text = false ->
          remedy response = lit "Unable to parse remedy from AI response")
      /\ (contains DOCTOR_LABEL text = false ->
          doctor_advice response =
          lit "If symptoms persist or worsen, please consult a healthcare provider")
      /\ (contains REMEDY_LABEL text = false ->
          contains DOCTOR_LABEL text = false ->
          response =
          mk_advice (lit "Unable to parse remedy from AI response")
            (lit "If symptoms persist or worsen, please consult a healthcare provider")).
Proof.
  intros renders generate symptoms kws text Hgen.
  exists (get_gemini_response generate symptoms kws).
  unfold get_gemini_response_or_raise, get_gemini_response. rewrite Hgen.
  split; [reflexivity |]. split; [| split].
  - intros Hr. cbn [remedy]. now rewrite (parse_remedy_absent text Hr).
  - intros Hd. cbn [doctor_advice].
    now rewrite (parse_doctor_advice_absent text Hd).
  - intros Hr Hd.
    now rewrite (parse_remedy_absent text Hr),
      (parse_doctor_advice_absent text Hd).
Qed.

(** The text [Drink water and rest], with neither heading, on a console
    that renders nothing. *)
Lemma missing_heading_gives_fallback_witness :
  get_gemini_response_or_raise (fun _ => false)
    (fun _ _ => Text (lit "Drink water and rest")) (lit "headache") []
  = Some (mk_advice REMEDY_UNPARSED DOCTOR_UNPARSED).
Proof.
  destruct (missing_heading_gives_fallback (fun _ => false)
              (fun _ _ => Text (lit "Drink water and rest")) (lit "headache")
              [] (lit "Drink water and rest") eq_refl)
    as [response [Hsome [_ [_ Hboth]]]].
  rewrite Hsome, (Hboth eq_refl eq_refl). reflexivity.
Defined.

(** X20.  A call of [report_symptoms] stores a row only when it runs to its
    end: a run that finishes has stored exactly one row, one the store
    took; a run that ends in an exception, or that stands at the prompt,
    has stored none. *)
Theorem record_stored_iff_run_finished :
  forall lower_fn isdigit_fn renders accepts w student_id,
    let r := report_flow lower_fn isdigit_fn renders accepts w student_id in
    (status r = Finished <->
     exists row, inserted (steps r) = [row] /\ accepts row = true)
    /\ (status r <> Finished <-> inserted (steps r) = []).
Proof.
  intros lower_fn isdigit_fn renders accepts w student_id r.
  assert (H : (status r = Finished ->
               exists row, inserted (steps r) = [row] /\ accepts row = true)
              /\ (status r <> Finished -> inserted (steps r) = [])).
  { subst r. unfold report_flow.
    destruct (load_symptoms_db_or_raise renders (file w)) as [said [db |]]
      eqn:El.
    - assert (Hsaid : inserted said = []).
      { unfold load_symptoms_db_or_raise in El.
        destruct (file w) as [e | e | db0];
          try destruct (renders (DbLoadError e));
          injection El as <- _; reflexivity. }
      cbn [steps status]. rewrite inserted_app, Hsaid. cbn [app].
      exact (report_flow_loop_stores lower_fn isdigit_fn renders accepts w
               student_id db (answers w)).
    - cbn [steps status]. split; [discriminate |]. intros _.
      unfold load_symptoms_db_or_raise in El.
      destruct (file w) as [e | e | db0];
        try destruct (renders (DbLoadError e));
        injection El as <-; reflexivity. }
  destruct H as [Hfin Hnot]. split; split.
  - exact Hfin.
  - intros [row [Hrow _]] .
    destruct (status r) eqn:Es; [reflexivity | |];
      (rewrite Hnot in Hrow by discriminate; discriminate Hrow).
  - exact Hnot.
  - intros Hnone Hf. destruct (Hfin Hf) as [row [Hrow _]].
    rewrite Hnone in Hrow. discriminate Hrow.
Qed.
